(** * COVID imaging metadata pipeline: preprocessing and analytics wrappers

    A shallow embedding of the Python modules under [src/preprocessing] and
    [src/analytics], together with the properties their specification states.

    The modules are thin wrappers around a dataframe engine.  The engine's
    operations that the wrappers call ([count], [dropDuplicates], [filter],
    [withColumn], [na.fill], [na.drop], aggregates, [limit]) are modelled on
    in-memory tables: a schema and a list of rows.  Floating-point numbers are
    modelled by exact rationals. *)

From Stdlib Require Import ZArith QArith Qcanon Qround Lqa.
From Stdlib Require Import List String Bool Lia Permutation.
Import ListNotations.

Set Implicit Arguments.
Open Scope Q_scope.

(* ================================================================= *)
(** ** Python outcomes: exceptions, results, printed output *)

Inductive exn : Type :=
| FileNotFoundError (msg : string)
| ValueError (msg : string)
| ZeroDivisionError
| TypeError
| AnalysisException (msg : string).

Inductive result (A : Type) : Type :=
| Ok (a : A)
| Raise (e : exn).

Arguments Ok {A} a.
Arguments Raise {A} e.

Definition rbind {A B : Type} (m : result A) (f : A -> result B) : result B :=
  match m with
  | Ok a => f a
  | Raise e => Raise e
  end.

(* ================================================================= *)
(** ** Tables *)

Inductive dtype : Type := IntegerType | DoubleType | StringType | DateType.

Inductive value : Type :=
| VInt (z : Z)
| VDouble (q : Qc)
| VStr (s : string)
| VDate (d : Z).

(** A cell is a value or SQL NULL ([None]). *)
Definition cell : Type := option value.
Definition row : Type := list cell.

Record field : Type := { name : string; dataType : dtype }.

Record DataFrame : Type := { schema : list field; rows : list row }.

(* ----------------------------------------------------------------- *)
(** *** Printed output *)

(** What the wrappers print, one entry per [print] call, with the
    interpolated values kept as data. *)
Inductive message : Type :=
| MsgRemovedDuplicates (n : Z)
| MsgRemovedOutliers (n : Z) (column : string)
| MsgDroppedThreshold (percent : Q)
| MsgFilledCustom (columns : list string)
| MsgDroppedMissing (n : Z)
| MsgFilledZero (columns : list string)
| MsgFilledStat (column : string) (strategy : string) (stat_value : value)
| MsgRegistered (table_name : string).

(** A computation that prints and may raise: the lines printed so far and
    the outcome. *)
Definition io (A : Type) : Type := (list message * result A)%type.

Definition ret {A : Type} (a : A) : io A := ([], Ok a).

Definition print (m : message) : io unit := ([m], Ok tt).

Definition lift {A : Type} (r : result A) : io A := ([], r).

Definition bind {A B : Type} (m : io A) (f : A -> io B) : io B :=
  match m with
  | (out, Ok a) => let (out', r) := f a in (out ++ out', r)
  | (out, Raise e) => (out, Raise e)
  end.

Declare Scope io_scope.
Delimit Scope io_scope with io.
Notation "x <- m ;; k" := (bind m (fun x => k))
  (at level 61, m at next level, right associativity) : io_scope.
Notation "m ;;; k" := (bind m (fun _ => k))
  (at level 61, right associativity) : io_scope.

Definition stdout {A : Type} (m : io A) : list message := fst m.
Definition outcome {A : Type} (m : io A) : result A := snd m.

Definition dtype_eqb (a b : dtype) : bool :=
  match a, b with
  | IntegerType, IntegerType | DoubleType, DoubleType
  | StringType, StringType | DateType, DateType => true
  | _, _ => false
  end.

Definition type_of (v : value) : dtype :=
  match v with
  | VInt _ => IntegerType
  | VDouble _ => DoubleType
  | VStr _ => StringType
  | VDate _ => DateType
  end.

(** [isinstance(field.dataType, NumericType)] *)
Definition is_numeric (t : dtype) : bool :=
  match t with
  | IntegerType | DoubleType => true
  | _ => false
  end.

Definition value_eqb (a b : value) : bool :=
  match a, b with
  | VInt x, VInt y => Z.eqb x y
  | VDouble x, VDouble y => Qeq_bool x y
  | VStr x, VStr y => String.eqb x y
  | VDate x, VDate y => Z.eqb x y
  | _, _ => false
  end.

Definition cell_eqb (a b : cell) : bool :=
  match a, b with
  | None, None => true
  | Some x, Some y => value_eqb x y
  | _, _ => false
  end.

Fixpoint row_eqb (a b : row) : bool :=
  match a, b with
  | [], [] => true
  | x :: a', y :: b' => cell_eqb x y && row_eqb a' b'
  | _, _ => false
  end.

(* ----------------------------------------------------------------- *)
(** *** Engine operations on tables *)

(** [df.columns] *)
Definition columns (df : DataFrame) : list string := map name (schema df).

(** [df.count()] *)
Definition count (df : DataFrame) : Z := Z.of_nat (List.length (rows df)).

(** [df.dropDuplicates()]: rows equal on every column are collapsed. *)
Fixpoint distinct (rs : list row) : list row :=
  match rs with
  | [] => []
  | r :: rs' => if existsb (row_eqb r) rs' then distinct rs'
                else r :: distinct rs'
  end.

Definition dropDuplicates (df : DataFrame) : DataFrame :=
  {| schema := schema df; rows := distinct (rows df) |}.

(** Position of the first column called [c]. *)
Fixpoint index_of (c : string) (names : list string) : option nat :=
  match names with
  | [] => None
  | n :: ns => if String.eqb c n then Some O
               else option_map S (index_of c ns)
  end.

(** [F.col(c)] resolved against a table: an unknown column is an analysis
    error of the engine. *)
Definition resolve (df : DataFrame) (c : string) : result nat :=
  match index_of c (columns df) with
  | Some i => Ok i
  | None => Raise (AnalysisException c)
  end.

Definition get (r : row) (i : nat) : cell := nth i r None.

Definition is_null (c : cell) : bool :=
  match c with None => true | Some _ => false end.

(** [df.filter(cond)]: a row is kept when the condition is true; a NULL
    condition drops the row. *)
Definition filter_rows (cond : row -> option bool) (df : DataFrame) : DataFrame :=
  {| schema := schema df;
     rows := filter (fun r => match cond r with Some true => true | _ => false end)
                    (rows df) |}.

(** The number a cell holds when it is compared with a numeric literal. *)
Definition numeric_of (v : value) : option Q :=
  match v with
  | VInt z => Some (inject_Z z)
  | VDouble q => Some (this q)
  | _ => None
  end.

Definition sql_and (a b : option bool) : option bool :=
  match a, b with
  | Some false, _ | _, Some false => Some false
  | Some true, Some true => Some true
  | _, _ => None
  end.

(** [F.col(c) >= lit] and [F.col(c) <= lit] on one cell. *)
Definition sql_ge (c : cell) (bound : Q) : option bool :=
  match c with
  | Some v => option_map (fun q => Qle_bool bound q) (numeric_of v)
  | None => None
  end.

Definition sql_le (c : cell) (bound : Q) : option bool :=
  match c with
  | Some v => option_map (fun q => Qle_bool q bound) (numeric_of v)
  | None => None
  end.

Definition coalesce (c d : cell) : cell :=
  match c with Some _ => c | None => d end.

(** Apply [g] to the element at position [i], when there is one. *)
Fixpoint update {A : Type} (i : nat) (g : A -> A) (l : list A) : list A :=
  match l, i with
  | [], _ => []
  | x :: l', O => g x :: l'
  | x :: l', S j => x :: update j g l'
  end.

Fixpoint assoc {A : Type} (k : string) (d : list (string * A)) : option A :=
  match d with
  | [] => None
  | (k', v) :: d' => if String.eqb k k' then Some v else assoc k d'
  end.

(** [d[k] = v] on a dict kept in insertion order. *)
Fixpoint dict_set {A : Type} (k : string) (v : A) (d : list (string * A))
  : list (string * A) :=
  match d with
  | [] => [(k, v)]
  | (k', v') :: d' => if String.eqb k k' then (k, v) :: d'
                      else (k', v') :: dict_set k v d'
  end.

Definition col_type (df : DataFrame) (i : nat) : dtype :=
  match nth_error (schema df) i with
  | Some f => dataType f
  | None => StringType
  end.

(** The cell of row [r] under the column called [c]. *)
Definition cell_at (df : DataFrame) (r : row) (c : string) : cell :=
  match index_of c (columns df) with
  | Some i => get r i
  | None => None
  end.

(** The row's cells, one per column of the schema. *)
Definition cells (df : DataFrame) (r : row) : list cell :=
  map (get r) (seq 0 (List.length (schema df))).

(** [df.na.drop()]: rows with a NULL in any column are removed. *)
Definition na_drop (df : DataFrame) : DataFrame :=
  {| schema := schema df;
     rows := filter (fun r => negb (existsb is_null (cells df r))) (rows df) |}.

(** [df.limit(n)] *)
Definition df_limit (n : Z) (df : DataFrame) : result DataFrame :=
  if (n <? 0)%Z then Raise (AnalysisException "INVALID_LIMIT_LIKE_EXPRESSION")
  else Ok {| schema := schema df; rows := firstn (Z.to_nat n) (rows df) |}.

(* ----------------------------------------------------------------- *)
(** *** Aggregates *)

(** The non-NULL cells of column [i]. *)
Definition column_cells (df : DataFrame) (i : nat) : list cell :=
  map (fun r => get r i) (rows df).

Fixpoint somes {A : Type} (l : list (option A)) : list A :=
  match l with
  | [] => []
  | Some x :: l' => x :: somes l'
  | None :: l' => somes l'
  end.

Definition column_values (df : DataFrame) (i : nat) : list value :=
  somes (column_cells df i).

Definition numbers (vs : list value) : list Q := somes (map numeric_of vs).

Definition Qsum (l : list Q) : Q := fold_right Qplus 0 l.

Definition Qlen (l : list Q) : Q := inject_Z (Z.of_nat (List.length l)).

(** [F.mean]: NULL over no values. *)
Definition mean (l : list Q) : option Q :=
  match l with
  | [] => None
  | _ => Some (Qsum l / Qlen l)
  end.

Fixpoint insert_sorted (x : Q) (l : list Q) : list Q :=
  match l with
  | [] => [x]
  | y :: l' => if Qle_bool x y then x :: l else y :: insert_sorted x l'
  end.

Definition sort (l : list Q) : list Q := fold_right insert_sorted [] l.

(** [F.median]: the middle value, or the average of the two middle values. *)
Definition median (l : list Q) : option Q :=
  match l with
  | [] => None
  | _ =>
    let s := sort l in
    let n := List.length s in
    if Nat.even n
    then Some ((nth (n / 2 - 1) s 0 + nth (n / 2) s 0) / 2)
    else Some (nth (n / 2) s 0)
  end.

(** [groupBy(column).count()]: one group per distinct cell, NULL included,
    in order of first occurrence. *)
Fixpoint bump (c : cell) (gs : list (cell * Z)) : list (cell * Z) :=
  match gs with
  | [] => [(c, 1%Z)]
  | (c', n) :: gs' => if cell_eqb c c' then (c', (n + 1)%Z) :: gs'
                      else (c', n) :: bump c gs'
  end.

Definition group_count (cs : list cell) : list (cell * Z) :=
  fold_left (fun gs c => bump c gs) cs [].

(** [orderBy(F.desc("count"))], stable. *)
Fixpoint insert_desc (g : cell * Z) (gs : list (cell * Z)) : list (cell * Z) :=
  match gs with
  | [] => [g]
  | h :: gs' => if (snd h <? snd g)%Z then g :: gs else h :: insert_desc g gs'
  end.

Definition order_by_count_desc (gs : list (cell * Z)) : list (cell * Z) :=
  fold_right insert_desc [] gs.

Definition value_le (a b : value) : bool :=
  match numeric_of a, numeric_of b with
  | Some x, Some y => Qle_bool x y
  | _, _ => match a, b with
            | VDate x, VDate y => (x <=? y)%Z
            | _, _ => true
            end
  end.

(** [F.min] and [F.max] over the non-NULL values of a numeric or date
    column. *)
Definition agg_min (vs : list value) : option value :=
  match vs with
  | [] => None
  | v :: vs' => Some (fold_left (fun m x => if value_le m x then m else x) vs' v)
  end.

Definition agg_max (vs : list value) : option value :=
  match vs with
  | [] => None
  | v :: vs' => Some (fold_left (fun m x => if value_le x m then m else x) vs' v)
  end.

(** Python's [round(x, 2)], ties to even. *)
Definition round_half_even (q : Q) : Z :=
  let f := Qfloor q in
  let r := q - inject_Z f in
  match Qcompare r (1 # 2) with
  | Lt => f
  | Gt => (f + 1)%Z
  | Eq => if Z.even f then f else (f + 1)%Z
  end.

Definition round2 (q : Q) : Q := inject_Z (round_half_even (q * 100)) / 100.

(* ================================================================= *)
(** ** preprocessing/age_categorization.py *)

Definition categorize_age (age : option Z) : option string :=
  match age with
  | None => None
  | Some age =>
    if (age <? 30)%Z then Some "Junior"%string
    else if (age <? 60)%Z then Some "Middle"%string
    else Some "Senior"%string
  end.

(** The fixed order of the bands: Junior < Middle < Senior. *)
Definition band_rank (band : string) : option nat :=
  if String.eqb band "Junior" then Some 0%nat
  else if String.eqb band "Middle" then Some 1%nat
  else if String.eqb band "Senior" then Some 2%nat
  else None.

Definition band_le (a b : string) : Prop :=
  match band_rank a, band_rank b with
  | Some x, Some y => (x <= y)%nat
  | _, _ => False
  end.

(* ----------------------------------------------------------------- *)
(** *** Casts, conditional columns and NULL filling *)

Section Engine.

(** The engine's casts to and from text (number formatting, text parsing)
    are left to the engine. *)
Variable cast_text : value -> dtype -> cell.

(** Conversion of a double to an integer drops the fraction. *)
Definition truncate (q : Q) : Z := Z.quot (Qnum q) (Zpos (Qden q)).

Definition cast (v : value) (t : dtype) : cell :=
  match v, t with
  | VInt _, IntegerType => Some v
  | VInt z, DoubleType => Some (VDouble (Q2Qc (inject_Z z)))
  | VDouble q, IntegerType => Some (VInt (truncate q))
  | VDouble _, DoubleType => Some v
  | VStr _, StringType => Some v
  | VDate _, DateType => Some v
  | VStr _, _ => cast_text v t
  | _, StringType => cast_text v t
  | _, _ => None
  end.

Definition cast_cell (c : cell) (t : dtype) : cell :=
  match c with
  | Some v => cast v t
  | None => None
  end.

(** The common type of the two branches of [F.when(..).otherwise(..)]. *)
Definition wider_type (a b : dtype) : result dtype :=
  if dtype_eqb a b then Ok a
  else if is_numeric a && is_numeric b then Ok DoubleType
  else match a, b with
       | StringType, _ | _, StringType => Ok StringType
       | _, _ => Raise (AnalysisException "DATATYPE_MISMATCH")
       end.

(** Whether [F.col(column) == pattern] type-checks for a column of type [t]
    and a literal of type [tp]. *)
Definition comparable (t tp : dtype) : bool :=
  dtype_eqb t tp || (is_numeric t && is_numeric tp)
  || dtype_eqb t StringType || dtype_eqb tp StringType.

(** [F.col(column) == pattern] on one cell of a column of type [t]. *)
Definition sql_eq (t : dtype) (p : value) (c : cell) : option bool :=
  if dtype_eqb t (type_of p) then option_map (fun v => value_eqb v p) c
  else if is_numeric t && is_numeric (type_of p) then
    match c with
    | Some v => match numeric_of v, numeric_of p with
                | Some a, Some b => Some (Qeq_bool a b)
                | _, _ => None
                end
    | None => None
    end
  else if dtype_eqb t StringType then
    option_map (fun w => value_eqb w p) (cast_cell c (type_of p))
  else
    match c, cast p t with
    | Some v, Some w => Some (value_eqb v w)
    | _, _ => None
    end.

(** [df.withColumn(column, F.when(cond, v).otherwise(F.col(column)))] for
    the existing column at position [i]: the column keeps its name and
    position. *)
Definition with_column_when (df : DataFrame) (i : nat)
    (cond : cell -> option bool) (v : value) : result DataFrame :=
  rbind (wider_type (type_of v) (col_type df i)) (fun t =>
  Ok {| schema := update i (fun f => {| name := name f; dataType := t |})
                         (schema df);
        rows := map (update i (fun c =>
                       match cond c with
                       | Some true => cast v t
                       | _ => cast_cell c t
                       end)) (rows df) |}).

Fixpoint fill_row (fs : list field) (values : list (string * value)) (r : row)
  : row :=
  match fs, r with
  | f :: fs', c :: r' =>
    match assoc (name f) values with
    | Some v => coalesce c (cast v (dataType f))
    | None => c
    end :: fill_row fs' values r'
  | _, _ => r
  end.

(** [df.na.fill(values)] for a dict: every key must be a column; the value
    is cast to the column's type and replaces NULL there. *)
Definition na_fill (values : list (string * value)) (df : DataFrame)
  : result DataFrame :=
  match find (fun kv => negb (existsb (String.eqb (fst kv)) (columns df)))
             values with
  | Some kv => Raise (AnalysisException (fst kv))
  | None => Ok {| schema := schema df;
                  rows := map (fill_row (schema df) values) (rows df) |}
  end.

(* ================================================================= *)
(** ** preprocessing/cleaner.py *)

Open Scope io_scope.

Fixpoint for_each {A S : Type} (xs : list A) (body : S -> A -> io S) (s : S)
  : io S :=
  match xs with
  | [] => ret s
  | x :: xs' => s' <- body s x ;; for_each xs' body s'
  end.

(** A key of a standardization rule: a literal or a callable applied to the
    column. *)
Inductive pattern : Type :=
| Literal (p : value)
| Callable (p : cell -> option bool).

(** The condition of the outlier filter,
    [(F.col(column) >= lower_bound) & (F.col(column) <= upper_bound)]. *)
Definition within (i : nat) (lower_bound upper_bound : Q) (r : row)
  : option bool :=
  sql_and (sql_ge (get r i) lower_bound) (sql_le (get r i) upper_bound).

Definition remove_duplicates_step (cleaned_df : DataFrame) : io DataFrame :=
  let initial_count := count cleaned_df in
  let cleaned_df := dropDuplicates cleaned_df in
  let final_count := count cleaned_df in
  print (MsgRemovedDuplicates (initial_count - final_count)) ;;;
  ret cleaned_df.

Definition remove_outliers_step (cleaned_df : DataFrame)
    (rule : string * (Q * Q)) : io DataFrame :=
  let '(column, (lower_bound, upper_bound)) := rule in
  let initial_count := count cleaned_df in
  i <- lift (resolve cleaned_df column) ;;
  let cleaned_df := filter_rows (within i lower_bound upper_bound) cleaned_df in
  let final_count := count cleaned_df in
  print (MsgRemovedOutliers (initial_count - final_count) column) ;;;
  ret cleaned_df.

Definition standardize_rule (i : nat) (cleaned_df : DataFrame)
    (rule : pattern * value) : io DataFrame :=
  let '(pat, standardized_value) := rule in
  match pat with
  | Callable p => lift (with_column_when cleaned_df i p standardized_value)
  | Literal p =>
    if comparable (col_type cleaned_df i) (type_of p)
    then lift (with_column_when cleaned_df i (sql_eq (col_type cleaned_df i) p)
                 standardized_value)
    else lift (Raise (AnalysisException "DATATYPE_MISMATCH"))
  end.

Definition standardize_column (cleaned_df : DataFrame)
    (entry : string * list (pattern * value)) : io DataFrame :=
  let '(column, rules) := entry in
  match index_of column (columns cleaned_df) with
  | Some i => for_each rules (standardize_rule i) cleaned_df
  | None => ret cleaned_df
  end.

Definition clean_data (df : DataFrame) (remove_duplicates : bool)
    (remove_outliers : option (list (string * (Q * Q))))
    (standardize_categories : option (list (string * list (pattern * value))))
  : io DataFrame :=
  let cleaned_df := df in
  cleaned_df <- (if remove_duplicates then remove_duplicates_step cleaned_df
                 else ret cleaned_df) ;;
  cleaned_df <- match remove_outliers with
                | Some rules => for_each rules remove_outliers_step cleaned_df
                | None => ret cleaned_df
                end ;;
  cleaned_df <- match standardize_categories with
                | Some entries => for_each entries standardize_column cleaned_df
                | None => ret cleaned_df
                end ;;
  ret cleaned_df.

(* ================================================================= *)
(** ** preprocessing/missing_values.py *)

(** Python's [sum] of a list of integers. *)
Definition sum_Z (l : list Z) : Z := fold_left Z.add l 0%Z.

(** [sum([F.when(F.col(c).isNull(), 1).otherwise(0) for c in df.columns])]
    on one row. *)
Definition null_count (df : DataFrame) (r : row) : Z :=
  sum_Z (map (fun c => if is_null (cell_at df r c) then 1%Z else 0%Z)
             (columns df)).

Definition null_fraction (df : DataFrame) (r : row) : Q :=
  inject_Z (null_count df r) / inject_Z (Z.of_nat (List.length (columns df))).

(** With no column at all, [sum([])] is the integer 0 and [0 / 0] raises. *)
Definition drop_threshold_step (filled_df : DataFrame) (drop_threshold : Q)
  : io DataFrame :=
  match columns filled_df with
  | [] => lift (Raise ZeroDivisionError)
  | _ :: _ =>
    let filled_df :=
      filter_rows (fun r => Some (Qle_bool (null_fraction filled_df r)
                                           drop_threshold)) filled_df in
    print (MsgDroppedThreshold (drop_threshold * 100)) ;;;
    ret filled_df
  end.

Definition numeric_columns (df : DataFrame) : list string :=
  map name (filter (fun f => is_numeric (dataType f)) (schema df)).

Definition double (q : Q) : value := VDouble (Q2Qc q).

(** The statistic of one column: [F.median], [F.mean], or the first row of
    [groupBy(column).count().orderBy(F.desc("count"))]. *)
Definition stat_value (strategy : string) (filled_df : DataFrame)
    (column : string) : result cell :=
  rbind (resolve filled_df column) (fun i =>
  if String.eqb strategy "median" then
    Ok (option_map double (median (numbers (column_values filled_df i))))
  else if String.eqb strategy "mean" then
    Ok (option_map double (mean (numbers (column_values filled_df i))))
  else
    match order_by_count_desc (group_count (column_cells filled_df i)) with
    | [] => Raise TypeError
    | (c, _) :: _ => Ok c
    end).

Definition impute_column (strategy : string) (filled_df : DataFrame)
    (column : string) : io DataFrame :=
  stat <- lift (stat_value strategy filled_df column) ;;
  match stat with
  | Some v =>
    filled_df <- lift (na_fill [(column, v)] filled_df) ;;
    print (MsgFilledStat column strategy v) ;;;
    ret filled_df
  | None => ret filled_df
  end.

(** [if drop_threshold is not None and 0 <= drop_threshold <= 1: ...] *)
Definition threshold_filter (filled_df : DataFrame) (drop_threshold : option Q)
  : io DataFrame :=
  match drop_threshold with
  | Some t => if Qle_bool 0 t && Qle_bool t 1
              then drop_threshold_step filled_df t
              else ret filled_df
  | None => ret filled_df
  end.

Definition handle_missing_values (df : DataFrame) (strategy : string)
    (fill_values : option (list (string * value)))
    (drop_threshold : option Q) : io DataFrame :=
  let filled_df := df in
  filled_df <- threshold_filter filled_df drop_threshold ;;
  filled_df <- match fill_values with
               | Some ((_ :: _) as values) =>
                 filled_df <- lift (na_fill values filled_df) ;;
                 print (MsgFilledCustom (map fst values)) ;;;
                 ret filled_df
               | _ => ret filled_df
               end ;;
  if String.eqb strategy "drop" then
    let initial_count := count filled_df in
    let filled_df := na_drop filled_df in
    let final_count := count filled_df in
    print (MsgDroppedMissing (initial_count - final_count)) ;;;
    ret filled_df
  else if String.eqb strategy "zero" then
    match numeric_columns filled_df with
    | [] => ret filled_df
    | (_ :: _) as cols =>
      filled_df <- lift (na_fill (map (fun c => (c, VInt 0)) cols) filled_df) ;;
      print (MsgFilledZero cols) ;;;
      ret filled_df
    end
  else if existsb (String.eqb strategy) ["median"; "mean"; "mode"]%string then
    for_each (numeric_columns filled_df) (impute_column strategy) filled_df
  else ret filled_df.

Close Scope io_scope.

(* ================================================================= *)
(** ** preprocessing/quality_assessment.py *)

(** Square root of the engine's doubles, used by [F.stddev]. *)
Variable fsqrt : Q -> Q.

(** [F.stddev]: the sample standard deviation, NULL below two values. *)
Definition stddev (l : list Q) : option Q :=
  match mean l with
  | Some m =>
    if (List.length l <=? 1)%nat then None
    else Some (fsqrt (Qsum (map (fun x => (x - m) * (x - m)) l)
                      / (Qlen l - 1)))
  | None => None
  end.

Record column_stats : Type := {
  stat_count : Z;
  stat_mean : option Q;
  stat_stddev : option Q;
  stat_min : option value;
  stat_max : option value
}.

Record metrics : Type := {
  total_records : Z;
  total_columns : Z;
  missing_values : list (string * Z);
  completeness_percentage : Q;
  duplicate_rows : Z;
  column_types : list (string * string);
  numeric_summary : list (string * column_stats)
}.

(** [df.filter(F.col(column).isNull()).count()] *)
Definition null_rows (df : DataFrame) (column : string) : Z :=
  count (filter_rows (fun r => Some (is_null (cell_at df r column))) df).

(** [str(field.dataType)] *)
Definition dtype_str (t : dtype) : string :=
  match t with
  | IntegerType => "IntegerType()"
  | DoubleType => "DoubleType()"
  | StringType => "StringType()"
  | DateType => "DateType()"
  end.

(** [round(x, 2) if x else None]: NULL and zero are both falsy. *)
Definition round_if_truthy (x : option Q) : option Q :=
  match x with
  | Some q => if Qeq_bool q 0 then None else Some (round2 q)
  | None => None
  end.

(** The aggregate row selected for one numeric column. *)
Definition select_stats (df : DataFrame) (column : string) : column_stats :=
  let vs := match index_of column (columns df) with
            | Some i => column_values df i
            | None => []
            end in
  {| stat_count := Z.of_nat (List.length vs);
     stat_mean := mean (numbers vs);
     stat_stddev := stddev (numbers vs);
     stat_min := agg_min vs;
     stat_max := agg_max vs |}.

Definition summarize (stats : column_stats) : column_stats :=
  {| stat_count := stat_count stats;
     stat_mean := round_if_truthy (stat_mean stats);
     stat_stddev := round_if_truthy (stat_stddev stats);
     stat_min := stat_min stats;
     stat_max := stat_max stats |}.

(** The [missing_values] dict: one entry per column name. *)
Definition missing_values_of (df : DataFrame) : list (string * Z) :=
  fold_left (fun d column => dict_set column (null_rows df column) d)
            (columns df) [].

Definition total_cells (df : DataFrame) : Z :=
  (count df * Z.of_nat (List.length (columns df)))%Z.

Definition missing_cells (df : DataFrame) : Z :=
  sum_Z (map snd (missing_values_of df)).

(** [((total_cells - missing_cells) / total_cells) * 100], before rounding. *)
Definition completeness (df : DataFrame) : Q :=
  (inject_Z (total_cells df - missing_cells df) / inject_Z (total_cells df))
  * 100.

Definition assess_quality (df : DataFrame) : result metrics :=
  let total_records := count df in
  let total_columns := Z.of_nat (List.length (columns df)) in
  let missing_values := missing_values_of df in
  if (total_cells df =? 0)%Z then Raise ZeroDivisionError
  else
    let duplicate_rows := (count df - count (dropDuplicates df))%Z in
    let column_types :=
      fold_left (fun d f => dict_set (name f) (dtype_str (dataType f)) d)
                (schema df) [] in
    let numeric_summary :=
      fold_left (fun d column =>
                   dict_set column (summarize (select_stats df column)) d)
                (numeric_columns df) [] in
    Ok {| total_records := total_records;
          total_columns := total_columns;
          missing_values := missing_values;
          completeness_percentage := round2 (completeness df);
          duplicate_rows := duplicate_rows;
          column_types := column_types;
          numeric_summary := numeric_summary |}.

End Engine.

(* ================================================================= *)
(** ** The session: visible paths and the catalog of temporary views *)

Record session : Type := {
  paths : list string;
  catalog : list (string * DataFrame)
}.

(** The calls the loader makes on [spark.read]. *)
Inductive read_call : Type :=
| ReadCsv (path : string) (header : bool) (schema : option (list field))
          (inferSchema : bool) (mode : string)
          (ignoreTrailingWhiteSpace : bool) (kwargs : list (string * string))
| ReadParquet (path : string) (kwargs : list (string * string))
| ReadJson (path : string) (kwargs : list (string * string))
| ReadOrc (path : string) (kwargs : list (string * string))
| ReadFormat (format : string) (path : string) (kwargs : list (string * string)).

Inductive query_result : Type :=
| Pandas (df : DataFrame)
| Lazy (df : DataFrame).

Section Session.

(** The engine's reader and SQL front end: a table, or the message of the
    engine's own exception. *)
Variable spark_read : session -> read_call -> DataFrame + string.
Variable spark_sql : session -> string -> DataFrame + string.

Definition engine {A : Type} (r : A + string) : result A :=
  match r with
  | inl a => Ok a
  | inr msg => Raise (AnalysisException msg)
  end.

(** [os.path.exists] *)
Definition path_exists (spark : session) (file_path : string) : bool :=
  existsb (String.eqb file_path) (paths spark).

(* ----------------------------------------------------------------- *)
(** *** preprocessing/data_loader.py *)

(** The outcome of the call and the session after it. *)
Definition load_dataset (spark : session) (file_path format : string)
    (header infer_schema : bool) (schema : option (list field))
    (mode : string) (kwargs : list (string * string))
  : result DataFrame * session :=
  if negb (path_exists spark file_path) then
    (Raise (FileNotFoundError ("File not found: " ++ file_path)), spark)
  else if String.eqb format "csv" then
    (engine (spark_read spark
               (ReadCsv file_path header schema
                        (match schema with
                         | None => infer_schema
                         | Some _ => false
                         end)
                        mode true kwargs)), spark)
  else if String.eqb format "parquet" then
    (engine (spark_read spark (ReadParquet file_path kwargs)), spark)
  else if String.eqb format "json" then
    (engine (spark_read spark (ReadJson file_path kwargs)), spark)
  else if String.eqb format "orc" then
    (engine (spark_read spark (ReadOrc file_path kwargs)), spark)
  else if String.eqb format "avro" then
    (engine (spark_read spark (ReadFormat "avro" file_path kwargs)), spark)
  else
    (Raise (ValueError ("Unsupported format: " ++ format)), spark).

(** The format tags the loader recognizes. *)
Definition recognized (format : string) : bool :=
  existsb (String.eqb format) ["csv"; "parquet"; "json"; "orc"; "avro"]%string.

(* ----------------------------------------------------------------- *)
(** *** analytics/sql_interface.py *)


(** [if limit:] holds for an integer other than 0; [None] and 0 are falsy. *)
Definition truthy (limit : option Z) : bool :=
  match limit with
  | Some n => negb (n =? 0)%Z
  | None => false
  end.

Definition execute_query (spark : session) (query : string)
    (to_pandas : bool) (limit : option Z) : result query_result :=
  rbind (engine (spark_sql spark query)) (fun df_result =>
  rbind (match limit with
         | Some n => if truthy limit then df_limit n df_result
                     else Ok df_result
         | None => Ok df_result
         end) (fun df_result =>
  if to_pandas then Ok (Pandas df_result) else Ok (Lazy df_result))).

End Session.

(* ================================================================= *)
(** ** Vocabulary of the properties *)


(** The counts printed by the outlier filters. *)
Fixpoint outlier_counts (out : list message) : list Z :=
  match out with
  | [] => []
  | MsgRemovedOutliers n _ :: out' => n :: outlier_counts out'
  | _ :: out' => outlier_counts out'
  end.

Definition same_columns (df df' : DataFrame) : Prop := columns df' = columns df.


(** The most frequent value among the non-NULL cells of a column, as the
    specification words the mode. *)
Definition mode_of_non_null (cs : list cell) : option cell :=
  match order_by_count_desc
          (group_count (filter (fun c => negb (is_null c)) cs)) with
  | [] => None
  | (c, _) :: _ => Some c
  end.

(* ================================================================= *)
(** ** Sample inputs *)

(** An engine without text casts, and a square root good to six decimals. *)
Definition no_text_cast (v : value) (t : dtype) : cell := None.

Definition sqrt6 (q : Q) : Q :=
  inject_Z (Z.sqrt (Qfloor (q * 1000000000000))) / 1000000.

(** A table with the single integer column [age]. *)
Definition age_table (ages : list (option Z)) : DataFrame :=
  {| schema := [ {| name := "age"; dataType := IntegerType |} ];
     rows := map (fun a => [option_map VInt a]) ages |}.


Definition patient (age : option Z) (weight : option Z) (finding : string)
  : row :=
  [option_map VInt age; option_map VInt weight; Some (VStr finding)].

Definition patients : DataFrame :=
  {| schema := [ {| name := "age"; dataType := IntegerType |};
                 {| name := "weight"; dataType := IntegerType |};
                 {| name := "finding"; dataType := StringType |} ];
     rows := [ patient (Some 25) (Some 70) "COVID";
               patient (Some 25) (Some 70) "COVID";
               patient (Some 150) (Some 500) "COVID-19";
               patient (Some 45) None "Pneumonia";
               patient None None "Pneumonia";
               patient (Some 70) (Some 300) "COVID-19" ]%Z |}.

Definition age_weight_rules : list (string * (Q * Q)) :=
  [ ("age"%string, (0, 120)); ("weight"%string, (30, 250)) ].

(** [lambda x: x.startswith("COVID")] *)
Definition starts_with_covid (c : cell) : option bool :=
  match c with
  | Some (VStr s) => Some (String.prefix "COVID" s)
  | _ => None
  end.

Definition finding_rules : list (string * list (pattern * value)) :=
  [ ("finding"%string, [ (Callable starts_with_covid, VStr "COVID-19") ]) ].

Definition local_session : session :=
  {| paths := [ "data/raw/metadata.csv"%string ]; catalog := [] |}.

Definition sample_reader (spark : session) (call : read_call)
  : DataFrame + string := inl patients.

Definition sample_sql (spark : session) (query : string)
  : DataFrame + string := inl patients.

(* ================================================================= *)
(** ** analytics/sql_interface.py: the standard analytics *)








(* ================================================================= *)
(** ** Further vocabulary *)

(** Both values are numbers and the first is at most the second. *)
Definition num_le (a b : value) : Prop :=
  exists x y, numeric_of a = Some x /\ numeric_of b = Some y /\ x <= y.

(** Row [r] is within the bounds of the outlier rule, for [column]
    resolved against [df]. *)
Definition rule_holds (df : DataFrame) (r : row) (rule : string * (Q * Q))
  : bool :=
  let '(column, (lo, hi)) := rule in
  match index_of column (columns df) with
  | Some i => match within i lo hi r with Some true => true | _ => false end
  | None => false
  end.

(** The condition a standardization rule tests on a cell of a text column. *)
Definition rule_cond (pat : pattern) (c : cell) : option bool :=
  match pat with
  | Callable p => p c
  | Literal l => option_map (fun v => value_eqb v l) c
  end.

(** The rules of one column applied to a cell, first to last. *)
Definition apply_rules (rules : list (pattern * value)) (c : cell) : cell :=
  fold_left (fun c rule =>
               match rule_cond (fst rule) c with
               | Some true => Some (snd rule)
               | _ => c
               end) rules c.

(** A text cell or NULL. *)
Definition is_text (c : cell) : Prop :=
  match c with
  | Some (VStr _) | None => True
  | Some _ => False
  end.

(** A rule that writes a text value and, when its key is a literal, tests
    a text literal. *)
Definition text_rule (rule : pattern * value) : Prop :=
  type_of (snd rule) = StringType
  /\ match fst rule with
     | Literal l => type_of l = StringType
     | Callable _ => True
     end.

(** What duplicate removal followed by outlier filtering keeps of a table:
    no row that was not there, and no duplicate once there is none. *)
Definition refines (s s' : DataFrame) : Prop :=
  schema s' = schema s
  /\ (forall r, In r (rows s') -> In r (rows s))
  /\ (NoDup (rows s) -> NoDup (rows s'))
  /\ (count s' <= count s)%Z.

(** The standardization entries whose column is a column of [df]. *)
Definition known_entries (df : DataFrame)
    (entries : list (string * list (pattern * value)))
  : list (string * list (pattern * value)) :=
  filter (fun entry => existsb (String.eqb (fst entry)) (columns df)) entries.

(** The second table has at most as many rows as the first. *)
Definition no_more_rows (s s' : DataFrame) : Prop := (count s' <= count s)%Z.

(** One rule on one cell. *)
Definition rule_step (rule : pattern * value) (c : cell) : cell :=
  match rule_cond (fst rule) c with
  | Some true => Some (snd rule)
  | _ => c
  end.

(** Row [r'] is row [r] with some NULL cells filled: the same length, and
    every value of [r] still in place. *)
Definition row_filled (r r' : row) : Prop :=
  List.length r' = List.length r
  /\ forall j v, get r j = Some v -> get r' j = Some v.

(** Table [s'] is table [s] with some NULL cells filled, row by row. *)
Definition filled (s s' : DataFrame) : Prop :=
  schema s' = schema s /\ Forall2 row_filled (rows s) (rows s').

(** Some row of the table holds a number at position [j]. *)
Definition has_number (df : DataFrame) (j : nat) : Prop :=
  exists r v q, In r (rows df) /\ get r j = Some v /\ numeric_of v = Some q.

(** Every row has one cell per column of the schema. *)
Definition rectangular (df : DataFrame) : Prop :=
  forall r, In r (rows df) -> List.length r = List.length (schema df).

(* ================================================================= *)
(** ** preprocessing/quality_assessment.py: the printed report *)

(** The lines [print_quality_report] prints, with the interpolated values
    kept as data. *)
Inductive report_line : Type :=
| LineRule
| LineTitle
| LineTotalRecords (n : Z)
| LineTotalColumns (n : Z)
| LineCompleteness (percentage : Q)
| LineDuplicateRows (n : Z)
| LineMissingHeader
| LineMissing (column : string) (count : Z) (percentage : Q)
| LineNumericHeader
| LineColumn (column : string)
| LineCount (n : Z)
| LineMean (mean : option Q)
| LineStdDev (stddev : option Q)
| LineRange (min max : option value).

(** The loop over [metrics["missing_values"].items()]: a column is listed
    when its count is positive, with [(count / total_records) * 100]. *)
Fixpoint print_missing (total_records : Z) (items : list (string * Z))
  : list report_line * result unit :=
  match items with
  | [] => ([], Ok tt)
  | (column, count) :: items' =>
    if (0 <? count)%Z then
      if (total_records =? 0)%Z then ([], Raise ZeroDivisionError)
      else
        let percentage := (inject_Z count / inject_Z total_records) * 100 in
        let (out, r) := print_missing total_records items' in
        (LineMissing column count percentage :: out, r)
    else print_missing total_records items'
  end.

(** The loop over [metrics["numeric_summary"].items()]. *)
Definition print_numeric (items : list (string * column_stats))
  : list report_line :=
  flat_map (fun item =>
              [ LineColumn (fst item);
                LineCount (stat_count (snd item));
                LineMean (stat_mean (snd item));
                LineStdDev (stat_stddev (snd item));
                LineRange (stat_min (snd item)) (stat_max (snd item)) ])
           items.

Definition print_quality_report (m : metrics)
  : list report_line * result unit :=
  let head := [ LineRule; LineTitle; LineRule;
                LineTotalRecords (total_records m);
                LineTotalColumns (total_columns m);
                LineCompleteness (completeness_percentage m);
                LineDuplicateRows (duplicate_rows m);
                LineMissingHeader ] in
  match print_missing (total_records m) (missing_values m) with
  | (out, Raise e) => (head ++ out, Raise e)
  | (out, Ok _) =>
    (head ++ out
     ++ match numeric_summary m with
        | [] => []
        | _ :: _ => LineNumericHeader :: print_numeric (numeric_summary m)
        end
     ++ [LineRule], Ok tt)
  end.

(* ================================================================= *)
(** ** Further sample inputs *)

(** The report of the assessor on [patients]. *)
Definition patients_report : metrics :=
  Eval vm_compute in
    match assess_quality sqrt6 patients with
    | Ok m => m
    | Raise _ =>
      {| total_records := 0; total_columns := 0; missing_values := [];
         completeness_percentage := 0; duplicate_rows := 0;
         column_types := []; numeric_summary := [] |}
    end.

(** [patients] after the handler with strategy "zero". *)
Definition patients_zero_filled : DataFrame :=
  Eval vm_compute in
    match outcome (handle_missing_values no_text_cast patients "zero"
                                         None None) with
    | Ok d => d
    | Raise _ => patients
    end.

(** [patients] after the handler with strategy "median". *)
Definition patients_median_filled : DataFrame :=
  Eval vm_compute in
    match outcome (handle_missing_values no_text_cast patients "median"
                                         None None) with
    | Ok d => d
    | Raise _ => patients
    end.

(* ================================================================= *)
(** * Properties *)

(** ** Equality of rows and duplicate removal *)

Lemma value_eqb_eq (a b : value) : value_eqb a b = true <-> a = b.
Proof.
  destruct a, b; simpl; split; intro H; try discriminate; try congruence.
  - apply Z.eqb_eq in H. congruence.
  - injection H as ->. apply Z.eqb_refl.
  - apply Qeq_bool_iff in H. f_equal. now apply Qc_is_canon.
  - injection H as ->. apply Qeq_bool_iff. reflexivity.
  - apply String.eqb_eq in H. congruence.
  - injection H as ->. apply String.eqb_refl.
  - apply Z.eqb_eq in H. congruence.
  - injection H as ->. apply Z.eqb_refl.
Qed.

Lemma cell_eqb_eq (a b : cell) : cell_eqb a b = true <-> a = b.
Proof.
  destruct a, b; simpl; split; intro H; try discriminate; try reflexivity.
  - f_equal. now apply value_eqb_eq.
  - injection H as ->. now apply value_eqb_eq.
Qed.

Lemma row_eqb_eq (a : row) : forall b, row_eqb a b = true <-> a = b.
Proof.
  induction a as [|x a IH]; intros [|y b]; simpl; split; intro H;
    try discriminate; try reflexivity.
  - apply andb_true_iff in H as [Hc Hr].
    apply cell_eqb_eq in Hc. apply IH in Hr. congruence.
  - injection H as -> ->. apply andb_true_iff. split.
    + now apply cell_eqb_eq.
    + now apply IH.
Qed.

Lemma existsb_row_eqb (r : row) (rs : list row) :
  existsb (row_eqb r) rs = true <-> In r rs.
Proof.
  rewrite existsb_exists. split.
  - intros [x [Hin Heq]]. apply row_eqb_eq in Heq. now subst.
  - intro Hin. exists r. split; [assumption | now apply row_eqb_eq].
Qed.

Lemma distinct_In (rs : list row) (r : row) : In r (distinct rs) <-> In r rs.
Proof.
  induction rs as [|x rs IH]; simpl; [tauto|].
  destruct (existsb (row_eqb x) rs) eqn:E.
  - apply existsb_row_eqb in E. rewrite IH. split; [tauto|].
    intros [-> | H]; assumption.
  - simpl. rewrite IH. tauto.
Qed.

Lemma distinct_NoDup (rs : list row) : NoDup (distinct rs).
Proof.
  induction rs as [|x rs IH]; simpl; [constructor|].
  destruct (existsb (row_eqb x) rs) eqn:E; [assumption|].
  constructor; [|assumption].
  rewrite distinct_In. intro Hin. apply existsb_row_eqb in Hin. congruence.
Qed.

Lemma distinct_fixed (rs : list row) : NoDup rs -> distinct rs = rs.
Proof.
  induction 1 as [|x rs Hnotin Hnd IH]; simpl; [reflexivity|].
  destruct (existsb (row_eqb x) rs) eqn:E.
  - apply existsb_row_eqb in E. contradiction.
  - now rewrite IH.
Qed.

Lemma distinct_idempotent (rs : list row) : distinct (distinct rs) = distinct rs.
Proof. apply distinct_fixed, distinct_NoDup. Qed.

Lemma distinct_length (rs : list row) :
  (List.length (distinct rs) <= List.length rs)%nat.
Proof.
  induction rs as [|x rs IH]; simpl; [lia|].
  destruct (existsb (row_eqb x) rs); simpl; lia.
Qed.

Lemma dropDuplicates_idempotent (df : DataFrame) :
  dropDuplicates (dropDuplicates df) = dropDuplicates df.
Proof. unfold dropDuplicates. simpl. now rewrite distinct_idempotent. Qed.

Lemma dropDuplicates_columns (df : DataFrame) :
  columns (dropDuplicates df) = columns df.
Proof. reflexivity. Qed.

Lemma count_nonneg (df : DataFrame) : (0 <= count df)%Z.
Proof. unfold count. lia. Qed.

(** ** The quality report exists exactly for tables with at least one cell *)

Lemma assess_quality_ok (fsqrt : Q -> Q) (df : DataFrame) :
  total_cells df <> 0%Z ->
  exists m, assess_quality fsqrt df = Ok m
    /\ total_records m = count df
    /\ completeness_percentage m = round2 (completeness df)
    /\ duplicate_rows m = (count df - count (dropDuplicates df))%Z.
Proof.
  intro H. unfold assess_quality.
  destruct (Z.eqb_spec (total_cells df) 0) as [E|E]; [contradiction|].
  eexists. split; [reflexivity|]. simpl. repeat split.
Qed.

Lemma assess_quality_raises (fsqrt : Q -> Q) (df : DataFrame) :
  total_cells df = 0%Z -> assess_quality fsqrt df = Raise ZeroDivisionError.
Proof. intro H. unfold assess_quality. now rewrite H. Qed.

Lemma assess_quality_inv (fsqrt : Q -> Q) (df : DataFrame) (m : metrics) :
  assess_quality fsqrt df = Ok m ->
  total_cells df <> 0%Z
  /\ completeness_percentage m = round2 (completeness df)
  /\ duplicate_rows m = (count df - count (dropDuplicates df))%Z.
Proof.
  unfold assess_quality.
  destruct (Z.eqb_spec (total_cells df) 0) as [E|E]; [discriminate|].
  intro H. injection H as <-. simpl. auto.
Qed.

(** On every table with at least one row and one column the report's
    duplicate count is [count - count of distinct rows], and it is 0 once
    the duplicates have been removed. *)
Lemma duplicate_rows_spec (fsqrt : Q -> Q) (df : DataFrame) :
  total_cells df <> 0%Z ->
  (exists m, assess_quality fsqrt df = Ok m
     /\ duplicate_rows m = (count df - count (dropDuplicates df))%Z)
  /\ (exists m, assess_quality fsqrt (dropDuplicates df) = Ok m
        /\ duplicate_rows m = 0%Z).
Proof.
  intro H. split.
  - destruct (assess_quality_ok fsqrt df H) as [m [Hm [_ [_ Hd]]]]. eauto.
  - assert (H' : total_cells (dropDuplicates df) <> 0%Z).
    { unfold total_cells, count in *. rewrite dropDuplicates_columns.
      simpl. destruct (rows df) as [|r rs]; [simpl in H; lia|].
      assert (In r (distinct (r :: rs))) by (apply distinct_In; now left).
      destruct (distinct (r :: rs)); [contradiction|].
      simpl List.length in *. nia. }
    destruct (assess_quality_ok fsqrt _ H') as [m [Hm [_ [_ Hd]]]].
    exists m. split; [assumption|].
    rewrite Hd, dropDuplicates_idempotent. lia.
Qed.

(** C1 (failing input).  On a table without rows the assessor raises
    [ZeroDivisionError] while computing the completeness percentage, before
    and after duplicate removal alike, so no duplicate count is reported,
    although [count - count of distinct rows] is 0 there. *)
Theorem assess_quality_empty_table (fsqrt : Q -> Q) (fields : list field) :
  let df := {| schema := fields; rows := [] |} in
  assess_quality fsqrt df = Raise ZeroDivisionError
  /\ assess_quality fsqrt (dropDuplicates df) = Raise ZeroDivisionError
  /\ (count df - count (dropDuplicates df))%Z = 0%Z.
Proof.
  intro df. repeat split; apply assess_quality_raises; reflexivity.
Qed.

(** ** Age bands *)

(** C2.  The age categorizer sends ages below 30 to "Junior", ages from 30
    to 59 to "Middle" and ages from 60 to "Senior"; a NULL age gives NULL;
    the band never decreases when the age grows, in the order
    Junior < Middle < Senior; 29/30 and 59/60 sit on the two boundaries. *)
Theorem categorize_age_bands :
  (forall a : Z, (a < 30)%Z -> categorize_age (Some a) = Some "Junior"%string)
  /\ (forall a : Z, (30 <= a < 60)%Z ->
        categorize_age (Some a) = Some "Middle"%string)
  /\ (forall a : Z, (60 <= a)%Z -> categorize_age (Some a) = Some "Senior"%string)
  /\ categorize_age None = None
  /\ (forall a b : Z, (a < b)%Z ->
        exists x y, categorize_age (Some a) = Some x
                    /\ categorize_age (Some b) = Some y /\ band_le x y)
  /\ categorize_age (Some 29%Z) = Some "Junior"%string
  /\ categorize_age (Some 30%Z) = Some "Middle"%string
  /\ categorize_age (Some 59%Z) = Some "Middle"%string
  /\ categorize_age (Some 60%Z) = Some "Senior"%string.
Proof.
  repeat split; try reflexivity.
  - intros a H. unfold categorize_age.
    destruct (Z.ltb_spec a 30); [reflexivity | lia].
  - intros a H. unfold categorize_age.
    destruct (Z.ltb_spec a 30); [lia|].
    destruct (Z.ltb_spec a 60); [reflexivity | lia].
  - intros a H. unfold categorize_age.
    destruct (Z.ltb_spec a 30); [lia|].
    destruct (Z.ltb_spec a 60); [lia | reflexivity].
  - intros a b H. unfold categorize_age.
    destruct (Z.ltb_spec a 30); destruct (Z.ltb_spec b 30);
      destruct (Z.ltb_spec a 60); destruct (Z.ltb_spec b 60);
      try lia; do 2 eexists; repeat split; unfold band_le; simpl; lia.
Qed.

Lemma categorize_age_bands_witness :
  categorize_age (Some 25%Z) = Some "Junior"%string
  /\ exists x y, categorize_age (Some 29%Z) = Some x
                 /\ categorize_age (Some 61%Z) = Some y /\ band_le x y.
Proof.
  split.
  - apply (proj1 categorize_age_bands 25%Z). lia.
  - apply (proj1 (proj2 (proj2 (proj2 (proj2 categorize_age_bands)))) 29%Z 61%Z).
    lia.
Defined.

(** ** Printing computations *)

Lemma bind_ret_l {A B : Type} (a : A) (f : A -> io B) : bind (ret a) f = f a.
Proof. unfold bind, ret. now destruct (f a). Qed.

Lemma bind_ret_r {A : Type} (m : io A) : bind m ret = m.
Proof.
  destruct m as [out [a|e]]; simpl; [|reflexivity].
  now rewrite app_nil_r.
Qed.

Lemma bind_ext {A B : Type} (m : io A) (f g : A -> io B) :
  (forall a, f a = g a) -> bind m f = bind m g.
Proof.
  intro H. destruct m as [out [a|e]]; simpl; [|reflexivity]. now rewrite H.
Qed.

Lemma bind_ok {A B : Type} (m : io A) (f : A -> io B) (b : B) :
  outcome (bind m f) = Ok b ->
  exists a, outcome m = Ok a /\ outcome (f a) = Ok b.
Proof.
  destruct m as [out [a|e]]; simpl; [|discriminate].
  destruct (f a) as [out' r] eqn:E. simpl. intros ->.
  exists a. now rewrite E.
Qed.

Lemma bind_lift_ok {A B : Type} (a : A) (f : A -> io B) :
  bind (lift (Ok a)) f = f a.
Proof. unfold bind, lift. now destruct (f a). Qed.

Lemma for_each_cons {A S : Type} (x : A) (xs : list A) (body : S -> A -> io S)
    (s : S) :
  for_each (x :: xs) body s = bind (body s x) (fun s' => for_each xs body s').
Proof. reflexivity. Qed.

(** A property of the state that every iteration keeps is kept by the loop. *)
Lemma for_each_preserves {A S : Type} (P : S -> S -> Prop)
    (body : S -> A -> io S) :
  (forall s, P s s) ->
  (forall s1 s2 s3, P s1 s2 -> P s2 s3 -> P s1 s3) ->
  (forall s x s', outcome (body s x) = Ok s' -> P s s') ->
  forall xs s s', outcome (for_each xs body s) = Ok s' -> P s s'.
Proof.
  intros Hrefl Htrans Hbody xs.
  induction xs as [|x xs IH]; intros s s' H; simpl in H.
  - injection H as <-. apply Hrefl.
  - apply bind_ok in H as [s1 [H1 H2]].
    apply Htrans with s1; [now apply Hbody with x | now apply IH].
Qed.

(** ** Outlier filtering *)


Lemma filter_rows_In (cond : row -> option bool) (df : DataFrame) (r : row) :
  In r (rows (filter_rows cond df)) <-> In r (rows df) /\ cond r = Some true.
Proof.
  unfold filter_rows. simpl. rewrite filter_In.
  destruct (cond r) as [[|]|]; intuition discriminate.
Qed.

Lemma filter_rows_count (cond : row -> option bool) (df : DataFrame) :
  (count (filter_rows cond df) <= count df)%Z.
Proof.
  unfold count, filter_rows. simpl.
  apply inj_le, filter_length_le.
Qed.

Lemma index_of_In (c : string) (names : list string) :
  In c names -> exists i, index_of c names = Some i.
Proof.
  induction names as [|n ns IH]; simpl; [contradiction|].
  intros [-> | H].
  - rewrite String.eqb_refl. eauto.
  - destruct (String.eqb c n); [eauto|].
    destruct (IH H) as [i ->]. simpl. eauto.
Qed.

Lemma index_of_Some_In (c : string) (names : list string) (i : nat) :
  index_of c names = Some i -> In c names.
Proof.
  revert i. induction names as [|n ns IH]; simpl; [discriminate|].
  intros i. destruct (String.eqb_spec c n) as [->|Hne]; [now left|].
  destruct (index_of c ns); [|discriminate]. intros _. right. eauto.
Qed.

Lemma remove_outliers_step_eq (df : DataFrame) (column : string) (lo hi : Q)
    (i : nat) :
  index_of column (columns df) = Some i ->
  remove_outliers_step df (column, (lo, hi)) =
  ([MsgRemovedOutliers (count df - count (filter_rows (within i lo hi) df))
                       column],
   Ok (filter_rows (within i lo hi) df)).
Proof.
  intro H. unfold remove_outliers_step, resolve. rewrite H. reflexivity.
Qed.

Lemma remove_outliers_step_raises (df : DataFrame) (column : string)
    (lo hi : Q) :
  index_of column (columns df) = None ->
  remove_outliers_step df (column, (lo, hi)) =
  ([], Raise (AnalysisException column)).
Proof.
  intro H. unfold remove_outliers_step, resolve. rewrite H. reflexivity.
Qed.





Lemma cell_at_dropDuplicates (df : DataFrame) (r : row) (c : string) :
  cell_at (dropDuplicates df) r c = cell_at df r c.
Proof. reflexivity. Qed.


(** ** The column set is kept *)

Lemma update_names (i : nat) (t : dtype) (fs : list field) :
  map name (update i (fun f => {| name := name f; dataType := t |}) fs)
  = map name fs.
Proof.
  revert i. induction fs as [|f fs IH]; intros [|i]; simpl; try reflexivity.
  now rewrite IH.
Qed.

Lemma with_column_when_columns (cast_text : value -> dtype -> cell)
    (df : DataFrame) (i : nat) (cond : cell -> option bool) (v : value)
    (out : DataFrame) :
  with_column_when cast_text df i cond v = Ok out -> same_columns df out.
Proof.
  unfold with_column_when, rbind.
  destruct (wider_type (type_of v) (col_type df i)) as [t|e]; [|discriminate].
  intro H. injection H as <-. unfold same_columns, columns. simpl.
  apply update_names.
Qed.

Lemma na_fill_schema (cast_text : value -> dtype -> cell)
    (values : list (string * value)) (df out : DataFrame) :
  na_fill cast_text values df = Ok out -> schema out = schema df.
Proof.
  unfold na_fill.
  destruct (find _ values); [discriminate|].
  intro H. now injection H as <-.
Qed.

Lemma lift_outcome {A : Type} (r : result A) : outcome (lift r) = r.
Proof. reflexivity. Qed.

Lemma standardize_rule_columns (cast_text : value -> dtype -> cell) (i : nat)
    (df : DataFrame) (rule : pattern * value) (out : DataFrame) :
  outcome (standardize_rule cast_text i df rule) = Ok out ->
  same_columns df out.
Proof.
  destruct rule as [[p|p] v]; unfold standardize_rule.
  - destruct (comparable (col_type df i) (type_of p)); [|discriminate].
    intro H. exact (with_column_when_columns _ _ _ _ _ H).
  - intro H. exact (with_column_when_columns _ _ _ _ _ H).
Qed.

Lemma same_columns_refl (df : DataFrame) : same_columns df df.
Proof. reflexivity. Qed.

Lemma same_columns_trans (a b c : DataFrame) :
  same_columns a b -> same_columns b c -> same_columns a c.
Proof. unfold same_columns. congruence. Qed.

Lemma standardize_column_columns (cast_text : value -> dtype -> cell)
    (df : DataFrame) (entry : string * list (pattern * value))
    (out : DataFrame) :
  outcome (standardize_column cast_text df entry) = Ok out ->
  same_columns df out.
Proof.
  destruct entry as [column rules]. unfold standardize_column.
  destruct (index_of column (columns df)) as [i|].
  - apply (for_each_preserves same_columns).
    + apply same_columns_refl.
    + apply same_columns_trans.
    + intros s x s'. apply standardize_rule_columns.
  - simpl. intro H. injection H as <-. apply same_columns_refl.
Qed.

Lemma remove_outliers_step_columns (df : DataFrame)
    (rule : string * (Q * Q)) (out : DataFrame) :
  outcome (remove_outliers_step df rule) = Ok out -> same_columns df out.
Proof.
  destruct rule as [column [lo hi]].
  destruct (index_of column (columns df)) as [i|] eqn:E.
  - rewrite (remove_outliers_step_eq df column lo hi E). simpl.
    intro H. now injection H as <-.
  - rewrite (remove_outliers_step_raises df column lo hi E). discriminate.
Qed.

Lemma clean_data_columns (cast_text : value -> dtype -> cell) (df : DataFrame)
    (remove_duplicates : bool)
    (remove_outliers : option (list (string * (Q * Q))))
    (standardize_categories : option (list (string * list (pattern * value))))
    (out : DataFrame) :
  outcome (clean_data cast_text df remove_duplicates remove_outliers
                      standardize_categories) = Ok out ->
  same_columns df out.
Proof.
  unfold clean_data. intro H.
  apply bind_ok in H as [d1 [H1 H]].
  apply bind_ok in H as [d2 [H2 H]].
  apply bind_ok in H as [d3 [H3 H]].
  injection H as <-.
  assert (S1 : same_columns df d1).
  { destruct remove_duplicates; simpl in H1; injection H1 as <-; reflexivity. }
  assert (S2 : same_columns d1 d2).
  { destruct remove_outliers as [rules|].
    - revert H2. apply (for_each_preserves same_columns).
      + apply same_columns_refl.
      + apply same_columns_trans.
      + apply remove_outliers_step_columns.
    - injection H2 as <-. reflexivity. }
  assert (S3 : same_columns d2 d3).
  { destruct standardize_categories as [entries|].
    - revert H3. apply (for_each_preserves same_columns).
      + apply same_columns_refl.
      + apply same_columns_trans.
      + apply standardize_column_columns.
    - injection H3 as <-. reflexivity. }
  eapply same_columns_trans; [|exact S3].
  eapply same_columns_trans; eassumption.
Qed.


Lemma drop_threshold_step_rows (df : DataFrame) (t : Q) (out : DataFrame) :
  outcome (drop_threshold_step df t) = Ok out ->
  schema out = schema df /\ (forall r, In r (rows out) -> In r (rows df)).
Proof.
  unfold drop_threshold_step.
  destruct (columns df); [discriminate|]. simpl.
  intro H. injection H as <-. split; [reflexivity|].
  intros r Hr. now apply filter_rows_In in Hr.
Qed.

Lemma threshold_filter_rows (df : DataFrame) (drop_threshold : option Q)
    (out : DataFrame) :
  outcome (threshold_filter df drop_threshold) = Ok out ->
  schema out = schema df /\ (forall r, In r (rows out) -> In r (rows df)).
Proof.
  unfold threshold_filter.
  destruct drop_threshold as [t|].
  - destruct (Qle_bool 0 t && Qle_bool t 1).
    + apply drop_threshold_step_rows.
    + simpl. intro H. injection H as <-. auto.
  - simpl. intro H. injection H as <-. auto.
Qed.

Lemma schema_same_columns (df out : DataFrame) :
  schema out = schema df -> same_columns df out.
Proof. unfold same_columns, columns. now intros ->. Qed.

Lemma impute_column_columns (cast_text : value -> dtype -> cell)
    (strategy : string) (df : DataFrame) (column : string) (out : DataFrame) :
  outcome (impute_column cast_text strategy df column) = Ok out ->
  same_columns df out.
Proof.
  unfold impute_column. intro H.
  apply bind_ok in H as [stat [_ H]].
  destruct stat as [v|].
  - apply bind_ok in H as [d [H1 H]].
    apply bind_ok in H as [u [_ H]]. injection H as <-.
    rewrite lift_outcome in H1. apply schema_same_columns.
    now apply na_fill_schema in H1.
  - injection H as <-. reflexivity.
Qed.

Lemma handle_missing_values_columns (cast_text : value -> dtype -> cell)
    (df : DataFrame) (strategy : string)
    (fill_values : option (list (string * value)))
    (drop_threshold : option Q) (out : DataFrame) :
  outcome (handle_missing_values cast_text df strategy fill_values
                                 drop_threshold) = Ok out ->
  same_columns df out.
Proof.
  unfold handle_missing_values. intro H.
  apply bind_ok in H as [d1 [H1 H]].
  apply bind_ok in H as [d2 [H2 H]].
  assert (S1 : same_columns df d1).
  { apply schema_same_columns. now apply threshold_filter_rows in H1. }
  assert (S2 : same_columns d1 d2).
  { destruct fill_values as [[|kv values]|].
    - injection H2 as <-. reflexivity.
    - apply bind_ok in H2 as [d [Hf H2]].
      apply bind_ok in H2 as [u [_ H2]]. injection H2 as <-.
      rewrite lift_outcome in Hf. apply schema_same_columns.
      now apply na_fill_schema in Hf.
    - injection H2 as <-. reflexivity. }
  assert (S3 : same_columns d2 out).
  { destruct (String.eqb strategy "drop").
    - apply bind_ok in H as [u [_ H]]. injection H as <-. reflexivity.
    - destruct (String.eqb strategy "zero").
      + destruct (numeric_columns d2) as [|c cols].
        * injection H as <-. reflexivity.
        * apply bind_ok in H as [d [Hf H]].
          apply bind_ok in H as [u [_ H]]. injection H as <-.
          rewrite lift_outcome in Hf. apply schema_same_columns.
          now apply na_fill_schema in Hf.
      + destruct (existsb (String.eqb strategy) _).
        * revert H. apply (for_each_preserves same_columns).
          -- apply same_columns_refl.
          -- apply same_columns_trans.
          -- intros s x s'. apply impute_column_columns.
        * injection H as <-. reflexivity. }
  eapply same_columns_trans; [|exact S3].
  eapply same_columns_trans; eassumption.
Qed.

(** C8.  Whatever the options, a table returned by the cleaner or by the
    missing-value handler has the column names of the input, in the same
    order; threshold filtering returns the input's schema and only rows of
    the input. *)
Theorem transformations_keep_columns (cast_text : value -> dtype -> cell)
    (df : DataFrame) :
  (forall remove_duplicates remove_outliers standardize_categories out,
      outcome (clean_data cast_text df remove_duplicates remove_outliers
                          standardize_categories) = Ok out ->
      columns out = columns df)
  /\ (forall strategy fill_values drop_threshold out,
        outcome (handle_missing_values cast_text df strategy fill_values
                                       drop_threshold) = Ok out ->
        columns out = columns df)
  /\ (forall drop_threshold out,
        outcome (threshold_filter df drop_threshold) = Ok out ->
        schema out = schema df
        /\ forall r, In r (rows out) -> In r (rows df)).
Proof.
  split; [|split].
  - intros. eapply clean_data_columns; eassumption.
  - intros. eapply handle_missing_values_columns; eassumption.
  - intros drop_threshold out H. now apply threshold_filter_rows in H.
Qed.

(** ** Threshold filtering *)

Lemma drop_threshold_step_no_columns (df : DataFrame) (t : Q) :
  columns df = [] -> outcome (drop_threshold_step df t) = Raise ZeroDivisionError.
Proof. intro H. unfold drop_threshold_step. now rewrite H. Qed.


(** Outside [[0, 1]] the threshold is ignored. *)
Lemma threshold_filter_ignored (df : DataFrame) (t : Q) :
  t < 0 \/ 1 < t -> threshold_filter df (Some t) = ret df.
Proof.
  intro H. unfold threshold_filter.
  destruct (Qle_bool 0 t) eqn:E0; destruct (Qle_bool t 1) eqn:E1;
    try reflexivity.
  apply Qle_bool_iff in E0, E1. destruct H as [H|H].
  - exfalso. apply (Qlt_irrefl t). eapply Qlt_le_trans; eassumption.
  - exfalso. apply (Qlt_irrefl 1). eapply Qlt_le_trans; eassumption.
Qed.

(** ** The loader *)

Lemma engine_not_python {A : Type} (r : A + string) :
  (forall msg, engine r <> Raise (FileNotFoundError msg))
  /\ (forall msg, engine r <> Raise (ValueError msg)).
Proof. destruct r; split; intros msg H; discriminate. Qed.

Ltac engine_raises H :=
  exfalso;
  first [ eapply (proj1 (engine_not_python _)); exact H
        | eapply (proj2 (engine_not_python _)); exact H
        | discriminate H ].

(** C9.  The loader raises the "not found" error exactly when the path does
    not exist; for a format tag outside the recognized ones it fails, with
    the "unsupported format" error when the path exists (the existence
    check comes first), and the "unsupported format" error is raised in no
    other case; a failing call returns no table and leaves the session as
    it was. *)
Theorem load_dataset_failures
    (spark_read : session -> read_call -> DataFrame + string)
    (spark : session) (file_path format : string) (header infer_schema : bool)
    (schema : option (list field)) (mode : string)
    (kwargs : list (string * string)) :
  let run := load_dataset spark_read spark file_path format header
                          infer_schema schema mode kwargs in
  ((exists msg, fst run = Raise (FileNotFoundError msg))
   <-> path_exists spark file_path = false)
  /\ (path_exists spark file_path = false ->
      fst run = Raise (FileNotFoundError ("File not found: " ++ file_path)))
  /\ (recognized format = false ->
      fst run = if path_exists spark file_path
                then Raise (ValueError ("Unsupported format: " ++ format))
                else Raise (FileNotFoundError ("File not found: " ++ file_path)))
  /\ ((exists msg, fst run = Raise (ValueError msg))
      <-> path_exists spark file_path = true /\ recognized format = false)
  /\ (forall e, fst run = Raise e ->
        (forall df, fst run <> Ok df) /\ snd run = spark).
Proof.
  intro run. subst run. unfold load_dataset, recognized. simpl existsb.
  destruct (path_exists spark file_path) eqn:Ep; simpl negb; cbv iota.
  - destruct (String.eqb format "csv") eqn:E1;
    [|destruct (String.eqb format "parquet") eqn:E2;
      [|destruct (String.eqb format "json") eqn:E3;
        [|destruct (String.eqb format "orc") eqn:E4;
          [|destruct (String.eqb format "avro") eqn:E5]]]];
    simpl fst; simpl snd; simpl orb;
    (split; [|split; [|split; [|split]]]);
    try discriminate; try (intros _; reflexivity);
    try (split; [intros [msg H]; engine_raises H | discriminate]);
    try (split; [intros [msg H]; engine_raises H
                | intros [_ H]; discriminate H]);
    try (intros e H; split; [intros df H'; congruence | reflexivity]).
    split; [intros _; now split | intros _; eexists; reflexivity].
  - simpl fst; simpl snd. split; [|split; [|split; [|split]]].
    + split; [reflexivity | intros _; eexists; reflexivity].
    + reflexivity.
    + reflexivity.
    + split; [intros [msg H]; discriminate H | intros [H _]; discriminate H].
    + intros e H. split; [intros df H'; discriminate H' | reflexivity].
Qed.

(** ** The query executor *)

(** C10.  A row-count cap of 0 is falsy: the executor behaves as with no
    cap and returns the query's full result, where [limit(0)] would have
    returned no row. *)
Theorem execute_query_limit_zero
    (spark_sql : session -> string -> DataFrame + string)
    (spark : session) (query : string) (to_pandas : bool) :
  execute_query spark_sql spark query to_pandas (Some 0%Z)
  = execute_query spark_sql spark query to_pandas None
  /\ (forall df, spark_sql spark query = inl df ->
        execute_query spark_sql spark query to_pandas (Some 0%Z)
        = Ok (if to_pandas then Pandas df else Lazy df))
  /\ (forall df, df_limit 0 df = Ok {| schema := schema df; rows := [] |}).
Proof.
  split; [reflexivity|]. split.
  - intros df H. unfold execute_query. rewrite H. simpl.
    now destruct to_pandas.
  - reflexivity.
Qed.

(** ** Rounding to two decimals *)







(** ** Sums and the missing-values dict *)





Lemma dict_set_In {A : Type} (k : string) (v : A) (d : list (string * A))
    (kv : string * A) :
  In kv (dict_set k v d) -> kv = (k, v) \/ In kv d.
Proof.
  induction d as [|[k' v'] d IH]; simpl.
  - intros [<-|[]]. now left.
  - destruct (String.eqb k k'); simpl.
    + intros [<-|H]; auto.
    + intros [<-|H]; auto. destruct (IH H); auto.
Qed.

Lemma dict_set_has {A : Type} (k : string) (v : A) (d : list (string * A)) :
  In (k, v) (dict_set k v d).
Proof.
  induction d as [|[k' v'] d IH]; simpl; [now left|].
  destruct (String.eqb k k'); simpl; auto.
Qed.

Lemma dict_set_keeps {A : Type} (k : string) (v : A) (d : list (string * A))
    (kv : string * A) :
  In kv d -> (fst kv = k -> snd kv = v) -> In kv (dict_set k v d).
Proof.
  induction d as [|[k' v'] d IH]; simpl; [contradiction|].
  intros [<-|H] Hsame.
  - destruct (String.eqb_spec k k') as [->|Hne]; simpl; [|now left].
    left. f_equal. symmetry. now apply Hsame.
  - destruct (String.eqb k k'); simpl; auto.
Qed.

Lemma dict_set_length {A : Type} (k : string) (v : A) (d : list (string * A)) :
  (List.length (dict_set k v d) <= S (List.length d))%nat.
Proof.
  induction d as [|[k' v'] d IH]; simpl; [lia|].
  destruct (String.eqb k k'); simpl; lia.
Qed.

(** A dict filled with [d[c] = f c] for the keys [cs]: its entries are
    exactly the pairs [(c, f c)], and it has at most one entry per key
    assigned. *)
Lemma dict_of_keys {A : Type} (f : string -> A) (cs : list string) :
  forall d,
  (forall kv, In kv d -> snd kv = f (fst kv)) ->
  let d' := fold_left (fun d c => dict_set c (f c) d) cs d in
  (forall kv, In kv d' -> snd kv = f (fst kv) /\ (In kv d \/ In (fst kv) cs))
  /\ (forall c, In c cs -> In (c, f c) d')
  /\ (forall kv, In kv d -> In kv d')
  /\ (List.length d' <= List.length d + List.length cs)%nat.
Proof.
  induction cs as [|c cs IH]; intros d Hd; simpl.
  - repeat split; auto; try contradiction. lia.
  - assert (Hd' : forall kv, In kv (dict_set c (f c) d) -> snd kv = f (fst kv)).
    { intros kv H. apply dict_set_In in H as [->|H]; [reflexivity | auto]. }
    destruct (IH (dict_set c (f c) d) Hd') as [I1 [I2 [I3 I4]]].
    split; [|split; [|split]].
    + intros kv H. destruct (I1 kv H) as [E [H'|H']].
      * split; [assumption|].
        apply dict_set_In in H' as [->|H']; [right; now left | now left].
      * split; [assumption|]. right. now right.
    + intros c' [<-|H]; [|now apply I2].
      apply I3, dict_set_has.
    + intros kv H. apply I3, dict_set_keeps; [assumption|].
      intros <-. now apply Hd.
    + pose proof (dict_set_length c (f c) d). lia.
Qed.

Lemma null_rows_range (df : DataFrame) (c : string) :
  (0 <= null_rows df c <= count df)%Z.
Proof.
  unfold null_rows. split; [apply count_nonneg | apply filter_rows_count].
Qed.




(** ** Completeness *)






(** ** Imputation by statistic *)

(** The mode of a column holding 1, 1, 2, 3 is 1, and it replaces the NULL. *)
Lemma mode_of_1_1_2_3 (cast_text : value -> dtype -> cell) :
  stat_value "mode" (age_table [Some 1; Some 1; Some 2; Some 3]%Z) "age"
  = Ok (Some (VInt 1))
  /\ handle_missing_values cast_text
       (age_table [Some 1; Some 1; Some 2; Some 3; None]%Z) "mode" None None
     = ([MsgFilledStat "age" "mode" (VInt 1)],
        Ok (age_table [Some 1; Some 1; Some 2; Some 3; Some 1]%Z)).
Proof. split; reflexivity. Qed.

(** Median and mean skip the NULL cells. *)
Lemma median_mean_skip_nulls (cast_text : value -> dtype -> cell) :
  outcome (handle_missing_values cast_text
             (age_table [Some 1; None; None; Some 5; Some 3]%Z)
             "median" None None)
  = Ok (age_table [Some 1; Some 3; Some 3; Some 5; Some 3]%Z)
  /\ outcome (handle_missing_values cast_text
                (age_table [Some 1; None; None; Some 5; Some 6]%Z)
                "mean" None None)
     = Ok (age_table [Some 1; Some 4; Some 4; Some 5; Some 6]%Z).
Proof. split; reflexivity. Qed.

(** A column of NULLs only, in a table with rows, is left as it is and no
    error is raised, whatever the statistic. *)
Lemma all_null_column_unfilled (cast_text : value -> dtype -> cell)
    (strategy : string) :
  In strategy ["median"; "mean"; "mode"]%string ->
  handle_missing_values cast_text (age_table [None; None]) strategy None None
  = ([], Ok (age_table [None; None])).
Proof.
  intros [<-|[<-|[<-|[]]]]; reflexivity.
Qed.

(** C3 (failing input).  With strategy "mode" the statistic is the first
    group of [groupBy(column).count()] by descending count, and NULL is one
    of the groups: for a column holding 1, NULL, NULL the statistic is NULL
    and the column is left unfilled, although its only non-NULL value is 1
    and "median" fills the same column; on a table without rows the group
    list is empty and [first()[0]] raises. *)
Theorem mode_counts_the_null_group (cast_text : value -> dtype -> cell) :
  let df := age_table [Some 1%Z; None; None] in
  stat_value "mode" df "age" = Ok None
  /\ handle_missing_values cast_text df "mode" None None = ([], Ok df)
  /\ mode_of_non_null (column_cells df 0) = Some (Some (VInt 1))
  /\ outcome (handle_missing_values cast_text df "median" None None)
     = Ok (age_table [Some 1; Some 1; Some 1]%Z)
  /\ handle_missing_values cast_text (age_table []) "mode" None None
     = ([], Raise TypeError).
Proof. repeat split; reflexivity. Qed.

(** ** The numeric summary *)

Lemma round_if_truthy_cases (x : option Q) :
  match x with
  | None => round_if_truthy x = None
  | Some q => (q == 0 -> round_if_truthy x = None)
              /\ (~ q == 0 -> round_if_truthy x = Some (round2 q))
  end.
Proof.
  destruct x as [q|]; [|reflexivity]. unfold round_if_truthy.
  destruct (Qeq_bool q 0) eqn:E; split; intro H; try reflexivity.
  - apply Qeq_bool_iff in E. contradiction.
  - apply Qeq_bool_iff in H. congruence.
Qed.

(** The standard deviation of a single value is NULL, and so is reported. *)
Lemma stddev_single_value (fsqrt : Q -> Q) (x : Q) :
  stddev fsqrt [x] = None /\ round_if_truthy (stddev fsqrt [x]) = None.
Proof. split; reflexivity. Qed.

(** C7 (failing input).  The report tests the statistic for truth before
    rounding it, and 0.0 is falsy: for an [age] column holding -1 and 1 the
    engine's mean is 0 and the report gives it as undefined; for a column
    holding 5 and 5 the standard deviation is 0 and is given as undefined
    as well. *)
Theorem zero_statistic_reported_undefined (fsqrt : Q -> Q) :
  let df := age_table [Some (-1); Some 1]%Z in
  (exists q, stat_mean (select_stats fsqrt df "age") = Some q /\ q == 0)
  /\ (exists m stats,
        assess_quality fsqrt df = Ok m
        /\ assoc "age" (numeric_summary m) = Some stats
        /\ stat_mean stats = None)
  /\ (exists q, stat_stddev (select_stats sqrt6 (age_table [Some 5; Some 5]%Z)
                                          "age") = Some q /\ q == 0)
  /\ stat_stddev (summarize (select_stats sqrt6 (age_table [Some 5; Some 5]%Z)
                                          "age")) = None.
Proof.
  intro df. split; [|split; [|split]].
  - eexists. split; [reflexivity|]. reflexivity.
  - eexists. eexists. split; [reflexivity|]. split; reflexivity.
  - eexists. split; [reflexivity|]. reflexivity.
  - reflexivity.
Qed.

(** ** The order in which the engine lists the groups *)

(** The first group by descending count has the largest count. *)
Lemma order_by_count_desc_head (gs : list (cell * Z)) :
  match order_by_count_desc gs with
  | [] => gs = []
  | g :: _ => In g gs /\ forall h, In h gs -> (snd h <= snd g)%Z
  end.
Proof.
  induction gs as [|x gs IH]; simpl; [reflexivity|].
  destruct (order_by_count_desc gs) as [|g rest]; simpl.
  - subst gs. split; [now left|]. intros h [<-|[]]. lia.
  - destruct IH as [Hin Hmax].
    destruct (Z.ltb_spec (snd g) (snd x)).
    + split; [now left|]. intros h [<-|Hh]; [lia|].
      specialize (Hmax h Hh). lia.
    + split; [now right|]. intros h [<-|Hh]; [lia | now apply Hmax].
Qed.

(** When one group has strictly the largest count it comes first, in
    whatever order the engine lists the groups. *)
Lemma strict_mode_any_order (gs gs' : list (cell * Z)) (g : cell * Z) :
  Permutation gs gs' ->
  In g gs ->
  (forall h, In h gs -> h <> g -> (snd h < snd g)%Z) ->
  exists rest, order_by_count_desc gs' = g :: rest.
Proof.
  intros Hp Hin Hstrict.
  pose proof (order_by_count_desc_head gs') as H.
  destruct (order_by_count_desc gs') as [|g' rest].
  - subst gs'. apply Permutation_sym, Permutation_nil in Hp. subst gs.
    contradiction.
  - destruct H as [Hin' Hmax]. exists rest. f_equal.
    assert (Hg : In g gs') by (eapply Permutation_in; eassumption).
    assert (Hg' : In g' gs).
    { eapply Permutation_in; [apply Permutation_sym|]; eassumption. }
    destruct g as [c n], g' as [c' n'].
    destruct (cell_eqb c' c) eqn:Ec; destruct (Z.eq_dec n' n) as [En|En].
    + apply cell_eqb_eq in Ec. congruence.
    + specialize (Hmax _ Hg). simpl in Hmax.
      assert (Hne : (c', n') <> (c, n)) by congruence.
      specialize (Hstrict _ Hg' Hne). simpl in Hstrict. lia.
    + specialize (Hmax _ Hg). simpl in Hmax.
      assert (Hne : (c', n') <> (c, n)).
      { intro E. injection E as -> _.
        assert (cell_eqb c c = true) by now apply cell_eqb_eq. congruence. }
      specialize (Hstrict _ Hg' Hne). simpl in Hstrict. lia.
    + specialize (Hmax _ Hg). simpl in Hmax.
      assert (Hne : (c', n') <> (c, n)) by congruence.
      specialize (Hstrict _ Hg' Hne). simpl in Hstrict. lia.
Qed.

(** In the column 1, NULL, NULL the NULL group is strictly the largest, so
    the statistic is NULL in any listing order of the groups. *)
Lemma null_group_first_any_order (gs' : list (cell * Z)) :
  Permutation (group_count [Some (VInt 1); None; None]) gs' ->
  exists rest, order_by_count_desc gs' = (None, 2%Z) :: rest.
Proof.
  intro Hp. apply (strict_mode_any_order (g := (None, 2%Z)) Hp).
  - simpl. auto.
  - intros h Hh Hne. simpl in Hh.
    destruct Hh as [<-|[<-|[]]]; [simpl; lia | now contradiction Hne].
Qed.

(** With no explicit fill and a strategy outside the five known ones, the
    handler is the threshold filter alone. *)
Lemma handle_missing_values_threshold_only
    (cast_text : value -> dtype -> cell) (df : DataFrame) (strategy : string)
    (drop_threshold : option Q) :
  existsb (String.eqb strategy)
          ["drop"; "zero"; "median"; "mean"; "mode"]%string = false ->
  handle_missing_values cast_text df strategy None drop_threshold
  = threshold_filter df drop_threshold.
Proof.
  intro H. simpl in H.
  destruct (String.eqb strategy "drop") eqn:E1; [discriminate|].
  destruct (String.eqb strategy "zero") eqn:E2; [discriminate|].
  simpl in H. unfold handle_missing_values.
  rewrite <- (bind_ret_r (threshold_filter df drop_threshold)) at 2.
  apply bind_ext. intro d. rewrite bind_ret_l, E1, E2.
  simpl existsb. now rewrite H.
Qed.

(** ** The properties on the sample inputs *)





(** The order of the rules shows in the counts: a row outside both bounds
    is counted by whichever rule comes first. *)
Lemma outlier_counts_depend_on_order :
  outlier_counts (stdout (clean_data no_text_cast patients true
                            (Some age_weight_rules) None)) = [2; 2]%Z
  /\ outlier_counts (stdout (clean_data no_text_cast patients true
                               (Some (rev age_weight_rules)) None))
     = [4; 0]%Z.
Proof. split; reflexivity. Qed.

Lemma transformations_keep_columns_witness :
  exists out,
    outcome (clean_data no_text_cast patients true (Some age_weight_rules)
                        (Some finding_rules)) = Ok out
    /\ columns out = columns patients.
Proof.
  eexists. split; [vm_compute; reflexivity|].
  apply (proj1 (@transformations_keep_columns no_text_cast patients)
               true (Some age_weight_rules) (Some finding_rules)).
  vm_compute. reflexivity.
Defined.

Lemma load_dataset_failures_witness :
  fst (load_dataset sample_reader local_session "data/raw/missing.csv" "csv"
                    true true None "PERMISSIVE" [])
  = Raise (FileNotFoundError "File not found: data/raw/missing.csv")
  /\ fst (load_dataset sample_reader local_session "data/raw/metadata.csv"
                       "xml" true true None "PERMISSIVE" [])
     = Raise (ValueError "Unsupported format: xml").
Proof.
  split.
  - apply (proj1 (proj2 (@load_dataset_failures sample_reader local_session
             "data/raw/missing.csv" "csv" true true None "PERMISSIVE" []))).
    reflexivity.
  - apply (proj1 (proj2 (proj2 (@load_dataset_failures sample_reader
             local_session "data/raw/metadata.csv" "xml" true true None
             "PERMISSIVE" [])))).
    reflexivity.
Defined.

Lemma execute_query_limit_zero_witness :
  execute_query sample_sql local_session "SELECT * FROM patients" true
                (Some 0%Z) = Ok (Pandas patients).
Proof.
  apply (proj1 (proj2 (@execute_query_limit_zero sample_sql local_session
                         "SELECT * FROM patients" true)) patients).
  reflexivity.
Defined.

(* ================================================================= *)
(** * Further properties of the modules *)

(** ** Dicts in insertion order *)

Lemma assoc_dict_set_same {A : Type} (k : string) (v : A)
    (d : list (string * A)) :
  assoc k (dict_set k v d) = Some v.
Proof.
  induction d as [|[k' v'] d IH]; simpl.
  - now rewrite String.eqb_refl.
  - destruct (String.eqb k k') eqn:E; simpl.
    + now rewrite String.eqb_refl.
    + now rewrite E.
Qed.

Lemma assoc_dict_set_other {A : Type} (k k' : string) (v : A)
    (d : list (string * A)) :
  k' <> k -> assoc k' (dict_set k v d) = assoc k' d.
Proof.
  intro Hne. induction d as [|[k0 v0] d IH]; simpl.
  - destruct (String.eqb_spec k' k); [contradiction | reflexivity].
  - destruct (String.eqb_spec k k0) as [->|Hk]; simpl.
    + destruct (String.eqb_spec k' k0); [contradiction | reflexivity].
    + destruct (String.eqb k' k0); [reflexivity | exact IH].
Qed.


(** ** The catalog of temporary views *)



(** ** Capped queries *)

Lemma firstn_length_Z {A : Type} (n : Z) (l : list A) :
  (0 <= n)%Z -> (Z.of_nat (List.length (firstn (Z.to_nat n) l)) <= n)%Z.
Proof.
  intro H. rewrite length_firstn. lia.
Qed.

(** X3.  When the query succeeds with table [df]: a positive cap [n]
    returns the first [n] rows of [df], in the engine's row order, under
    the same schema, so at most [n] rows, and all of [df] when it has no
    more than [n] rows; a negative cap raises the engine's exception.  When the query fails, its
    exception is raised whatever the cap and the output kind. *)
Theorem execute_query_cap
    (spark_sql : session -> string -> DataFrame + string)
    (spark : session) (query : string) (to_pandas : bool) (n : Z) :
  (forall df, spark_sql spark query = inl df ->
     ((0 < n)%Z ->
      exists capped,
        execute_query spark_sql spark query to_pandas (Some n)
        = Ok (if to_pandas then Pandas capped else Lazy capped)
        /\ schema capped = schema df
        /\ rows capped = firstn (Z.to_nat n) (rows df)
        /\ (count capped <= n)%Z
        /\ ((count df <= n)%Z -> capped = df))
     /\ ((n < 0)%Z ->
         exists msg,
           execute_query spark_sql spark query to_pandas (Some n)
           = Raise (AnalysisException msg)))
  /\ (forall msg limit, spark_sql spark query = inr msg ->
        execute_query spark_sql spark query to_pandas limit
        = Raise (AnalysisException msg)).
Proof.
  split.
  - intros df H. unfold execute_query, truthy, df_limit. rewrite H. simpl.
    split; intro Hn.
    + destruct (Z.eqb_spec n 0); [lia|]. simpl.
      destruct (Z.ltb_spec n 0); [lia|]. simpl.
      eexists. split; [destruct to_pandas; reflexivity|]. simpl.
      repeat split.
      * unfold count. simpl. apply firstn_length_Z. lia.
      * unfold count. intro Hc. destruct df as [sch rs]. simpl in *.
        f_equal. apply firstn_all2. lia.
    + destruct (Z.eqb_spec n 0); [lia|]. simpl.
      destruct (Z.ltb_spec n 0); [|lia]. simpl. eexists. reflexivity.
  - intros msg limit H. unfold execute_query. now rewrite H.
Qed.

(** ** The standard analytics *)



(** ** The quality report *)

Lemma assoc_dict_of_keys {A : Type} (f : string -> A) (cs : list string)
    (c : string) :
  forall d,
  (In c cs ->
   assoc c (fold_left (fun d k => dict_set k (f k) d) cs d) = Some (f c))
  /\ (~ In c cs ->
      assoc c (fold_left (fun d k => dict_set k (f k) d) cs d) = assoc c d).
Proof.
  induction cs as [|k cs IH]; intro d; simpl.
  - split; [contradiction | reflexivity].
  - destruct (IH (dict_set k (f k) d)) as [I1 I2].
    destruct (in_dec string_dec c cs) as [Hin|Hnin].
    + split; intro H; [now apply I1 | exfalso; apply H; now right].
    + split.
      * intros [->|H]; [|contradiction].
        rewrite (I2 Hnin). apply assoc_dict_set_same.
      * intro H. rewrite (I2 Hnin). apply assoc_dict_set_other.
        intro E. apply H. now left.
Qed.

Lemma dict_set_fresh {A : Type} (k : string) (v : A) (d : list (string * A)) :
  ~ In k (map fst d) -> dict_set k v d = d ++ [(k, v)].
Proof.
  induction d as [|[k' v'] d IH]; simpl; [reflexivity|].
  intro H. destruct (String.eqb_spec k k') as [->|Hne].
  - exfalso. apply H. now left.
  - rewrite IH; [reflexivity|]. intro Hin. apply H. now right.
Qed.

Lemma dict_of_distinct_keys {A : Type} (f : string -> A) (cs : list string) :
  forall d,
  NoDup cs -> (forall c, In c cs -> ~ In c (map fst d)) ->
  fold_left (fun d k => dict_set k (f k) d) cs d
  = d ++ map (fun k => (k, f k)) cs.
Proof.
  induction cs as [|k cs IH]; intros d Hnd Hfresh; simpl.
  - now rewrite app_nil_r.
  - inversion Hnd as [|? ? Hk Hnd']; subst.
    rewrite dict_set_fresh by (apply Hfresh; now left).
    rewrite IH; [now rewrite <- app_assoc | assumption |].
    intros c Hc Hin. rewrite map_app in Hin. apply in_app_or in Hin.
    destruct Hin as [Hin|[<-|[]]].
    + apply (Hfresh c); [now right | assumption].
    + contradiction.
Qed.

Lemma total_cells_zero (df : DataFrame) :
  total_cells df = 0%Z <-> rows df = [] \/ schema df = [].
Proof.
  unfold total_cells, count, columns. rewrite length_map.
  destruct (rows df) as [|r rs]; destruct (schema df) as [|f fs]; simpl;
    split; intro H; try tauto; try lia.
  destruct H as [H|H]; discriminate H.
Qed.


(** X6.  In a report, [missing_values] has for every column of the table
    the number of rows whose cell under that column is NULL, a number
    between 0 and the row count, and no entry for any other name; when the
    column names are distinct the entries come in column order. *)
Theorem missing_values_lookup (fsqrt : Q -> Q) (df : DataFrame) (m : metrics) :
  assess_quality fsqrt df = Ok m ->
  (forall c, In c (columns df) ->
     assoc c (missing_values m) = Some (null_rows df c)
     /\ (0 <= null_rows df c <= total_records m)%Z)
  /\ (forall c, ~ In c (columns df) -> assoc c (missing_values m) = None)
  /\ (NoDup (columns df) ->
      missing_values m = map (fun c => (c, null_rows df c)) (columns df)).
Proof.
  unfold assess_quality.
  destruct (Z.eqb_spec (total_cells df) 0) as [E|E]; [discriminate|].
  intro H. injection H as <-. simpl. unfold missing_values_of.
  split; [|split].
  - intros c Hc. split; [|apply null_rows_range].
    now apply (assoc_dict_of_keys (null_rows df) (columns df) c []).
  - intros c Hc.
    now apply (assoc_dict_of_keys (null_rows df) (columns df) c []).
  - intro Hnd. now apply (dict_of_distinct_keys (null_rows df)).
Qed.

Lemma somes_filter_length {A : Type} (g : A -> cell) (l : list A) :
  (List.length (somes (map g l))
   + List.length (filter (fun x => is_null (g x)) l))%nat
  = List.length l.
Proof.
  induction l as [|x l IH]; simpl; [reflexivity|].
  destruct (g x); simpl; lia.
Qed.

Lemma numeric_columns_In (df : DataFrame) (c : string) :
  In c (numeric_columns df) <->
  exists f, In f (schema df) /\ name f = c /\ is_numeric (dataType f) = true.
Proof.
  unfold numeric_columns. rewrite in_map_iff. split.
  - intros [f [Hn Hf]]. apply filter_In in Hf as [Hf Ht]. eauto.
  - intros [f [Hf [Hn Ht]]]. exists f. split; [assumption|].
    apply filter_In. auto.
Qed.

Lemma numeric_columns_columns (df : DataFrame) (c : string) :
  In c (numeric_columns df) -> In c (columns df).
Proof.
  intro H. apply numeric_columns_In in H as [f [Hf [<- _]]].
  unfold columns. now apply in_map.
Qed.

(** X7.  In a report, [numeric_summary] has an entry exactly for the
    columns whose declared type is numeric, and for each of them the count
    of non-NULL values plus the column's entry in [missing_values] is the
    row count. *)
Theorem numeric_summary_counts (fsqrt : Q -> Q) (df : DataFrame) (m : metrics) :
  assess_quality fsqrt df = Ok m ->
  (forall c, In c (numeric_columns df) <-> assoc c (numeric_summary m) <> None)
  /\ (forall c stats, assoc c (numeric_summary m) = Some stats ->
        exists missing,
          assoc c (missing_values m) = Some missing
          /\ (stat_count stats + missing)%Z = total_records m).
Proof.
  unfold assess_quality.
  destruct (Z.eqb_spec (total_cells df) 0) as [E|E]; [discriminate|].
  intro H. injection H as <-. simpl.
  set (summary :=
         fold_left (fun d column =>
                      dict_set column (summarize (select_stats fsqrt df column)) d)
                   (numeric_columns df) []).
  assert (L : forall c,
    (In c (numeric_columns df) ->
     assoc c summary = Some (summarize (select_stats fsqrt df c)))
    /\ (~ In c (numeric_columns df) -> assoc c summary = None)).
  { intro c.
    exact (assoc_dict_of_keys
             (fun column => summarize (select_stats fsqrt df column))
             (numeric_columns df) c []). }
  split.
  - intro c. destruct (L c) as [L1 L2]. split.
    + intro Hc. rewrite (L1 Hc). discriminate.
    + intro Hs. destruct (in_dec string_dec c (numeric_columns df)) as [Hc|Hc];
        [assumption|]. exfalso. apply Hs. now apply L2.
  - intros c stats Hs. destruct (L c) as [L1 L2].
    destruct (in_dec string_dec c (numeric_columns df)) as [Hc|Hc].
    + rewrite (L1 Hc) in Hs. injection Hs as <-.
      exists (null_rows df c). split.
      * apply (assoc_dict_of_keys (null_rows df) (columns df) c []).
        now apply numeric_columns_columns.
      * apply numeric_columns_columns in Hc.
        destruct (index_of_In c (columns df) Hc) as [i Hi].
        unfold summarize, select_stats, null_rows, count, filter_rows,
          cell_at, column_values, column_cells. simpl. rewrite Hi.
        rewrite <- Nat2Z.inj_add. f_equal.
        rewrite <- (somes_filter_length (fun r => get r i) (rows df)).
        f_equal. f_equal. apply filter_ext. intro r.
        now destruct (is_null (get r i)).
    + rewrite (L2 Hc) in Hs. discriminate.
Qed.

Lemma distinct_length_NoDup (rs : list row) :
  List.length (distinct rs) = List.length rs <-> NoDup rs.
Proof.
  split; [|intro H; now rewrite distinct_fixed].
  induction rs as [|x rs IH]; simpl; [constructor|].
  pose proof (distinct_length rs) as Hl.
  destruct (existsb (row_eqb x) rs) eqn:E; simpl; intro H; [lia|].
  constructor.
  - intro Hin. apply existsb_row_eqb in Hin. congruence.
  - apply IH. lia.
Qed.

(** X8.  In a report the duplicate count is at least 0 and less than the
    row count, and it is 0 exactly when no two rows of the table are equal
    on every column. *)
Theorem duplicate_rows_zero_iff (fsqrt : Q -> Q) (df : DataFrame) (m : metrics) :
  assess_quality fsqrt df = Ok m ->
  (0 <= duplicate_rows m < total_records m)%Z
  /\ (duplicate_rows m = 0%Z <-> NoDup (rows df)).
Proof.
  unfold assess_quality.
  destruct (Z.eqb_spec (total_cells df) 0) as [E|E]; [discriminate|].
  intro H. injection H as <-. simpl.
  unfold count, dropDuplicates. simpl.
  pose proof (distinct_length (rows df)) as Hl.
  assert (Hpos : (0 < List.length (distinct (rows df)))%nat).
  { destruct (rows df) as [|r rs] eqn:Er.
    - exfalso. apply E. apply total_cells_zero. now left.
    - assert (Hin : In r (distinct (r :: rs))) by (apply distinct_In; now left).
      destruct (distinct (r :: rs)); [contradiction | simpl; lia]. }
  split; [lia|].
  rewrite <- distinct_length_NoDup. lia.
Qed.

Lemma somes_In {A : Type} (l : list (option A)) (x : A) :
  In x (somes l) <-> In (Some x) l.
Proof.
  induction l as [|[y|] l IH]; simpl; [tauto| |].
  - rewrite IH. split; intros [H|H]; auto; left; congruence.
  - rewrite IH. split; [auto|]. intros [H|H]; [discriminate | assumption].
Qed.

Lemma column_values_In (df : DataFrame) (i : nat) (v : value) :
  In v (column_values df i) <-> exists r, In r (rows df) /\ get r i = Some v.
Proof.
  unfold column_values, column_cells. rewrite somes_In, in_map_iff.
  split; intros [r [H1 H2]]; exists r; auto.
Qed.

Lemma value_le_num (a b : value) (x y : Q) :
  numeric_of a = Some x -> numeric_of b = Some y ->
  value_le a b = Qle_bool x y.
Proof. intros Ha Hb. unfold value_le. now rewrite Ha, Hb. Qed.

Lemma num_le_trans (a b c : value) : num_le a b -> num_le b c -> num_le a c.
Proof.
  intros [x [y [Ha [Hb Hxy]]]] [y' [z [Hb' [Hc Hyz]]]].
  rewrite Hb in Hb'. injection Hb' as <-.
  exists x, z. repeat split; try assumption. now apply Qle_trans with y.
Qed.

Lemma fold_min_spec (l : list value) :
  forall a,
  (forall v, In v (a :: l) -> exists q, numeric_of v = Some q) ->
  let m := fold_left (fun m x => if value_le m x then m else x) l a in
  In m (a :: l) /\ forall v, In v (a :: l) -> num_le m v.
Proof.
  induction l as [|x l IH]; intros a Hnum; simpl.
  - split; [now left|]. intros v [<-|[]].
    destruct (Hnum a (or_introl eq_refl)) as [q Hq].
    exists q, q. repeat split; try assumption. apply Qle_refl.
  - destruct (Hnum a (or_introl eq_refl)) as [qa Ha].
    destruct (Hnum x (or_intror (or_introl eq_refl))) as [qx Hx].
    rewrite (value_le_num a x Ha Hx).
    destruct (Qle_bool qa qx) eqn:E.
    + apply Qle_bool_iff in E.
      destruct (IH a) as [Hin Hle].
      { intros v [<-|Hv]; apply Hnum; [now left | now right; right]. }
      split; [destruct Hin as [<-|Hin]; [now left | now right; right]|].
      intros v [<-|[<-|Hv]].
      * apply Hle. now left.
      * apply num_le_trans with a; [apply Hle; now left|].
        exists qa, qx. auto.
      * apply Hle. now right.
    + assert (Hlt : qx <= qa).
      { apply Qlt_le_weak, Qnot_le_lt. intro H. apply Qle_bool_iff in H.
        congruence. }
      destruct (IH x) as [Hin Hle].
      { intros v [<-|Hv]; apply Hnum; [now right; left | now right; right]. }
      split; [destruct Hin as [<-|Hin]; [now right; left | now right; right]|].
      intros v [<-|[<-|Hv]].
      * apply num_le_trans with x; [apply Hle; now left|].
        exists qx, qa. auto.
      * apply Hle. now left.
      * apply Hle. now right.
Qed.

Lemma fold_max_spec (l : list value) :
  forall a,
  (forall v, In v (a :: l) -> exists q, numeric_of v = Some q) ->
  let m := fold_left (fun m x => if value_le x m then m else x) l a in
  In m (a :: l) /\ forall v, In v (a :: l) -> num_le v m.
Proof.
  induction l as [|x l IH]; intros a Hnum; simpl.
  - split; [now left|]. intros v [<-|[]].
    destruct (Hnum a (or_introl eq_refl)) as [q Hq].
    exists q, q. repeat split; try assumption. apply Qle_refl.
  - destruct (Hnum a (or_introl eq_refl)) as [qa Ha].
    destruct (Hnum x (or_intror (or_introl eq_refl))) as [qx Hx].
    rewrite (value_le_num x a Hx Ha).
    destruct (Qle_bool qx qa) eqn:E.
    + apply Qle_bool_iff in E.
      destruct (IH a) as [Hin Hle].
      { intros v [<-|Hv]; apply Hnum; [now left | now right; right]. }
      split; [destruct Hin as [<-|Hin]; [now left | now right; right]|].
      intros v [<-|[<-|Hv]].
      * apply Hle. now left.
      * apply num_le_trans with a; [|apply Hle; now left].
        exists qx, qa. auto.
      * apply Hle. now right.
    + assert (Hlt : qa <= qx).
      { apply Qlt_le_weak, Qnot_le_lt. intro H. apply Qle_bool_iff in H.
        congruence. }
      destruct (IH x) as [Hin Hle].
      { intros v [<-|Hv]; apply Hnum; [now right; left | now right; right]. }
      split; [destruct Hin as [<-|Hin]; [now right; left | now right; right]|].
      intros v [<-|[<-|Hv]].
      * apply num_le_trans with x; [|apply Hle; now left].
        exists qa, qx. auto.
      * apply Hle. now left.
      * apply Hle. now right.
Qed.

Lemma numeric_summary_entry (fsqrt : Q -> Q) (df : DataFrame) (m : metrics)
    (c : string) (stats : column_stats) :
  assess_quality fsqrt df = Ok m ->
  assoc c (numeric_summary m) = Some stats ->
  In c (numeric_columns df) /\ stats = summarize (select_stats fsqrt df c).
Proof.
  unfold assess_quality.
  destruct (Z.eqb_spec (total_cells df) 0) as [E|E]; [discriminate|].
  intro H. injection H as <-. simpl. intro Hs.
  pose proof (assoc_dict_of_keys
                (fun column => summarize (select_stats fsqrt df column))
                (numeric_columns df) c []) as [L1 L2].
  cbv beta in L1, L2.
  destruct (in_dec string_dec c (numeric_columns df)) as [Hc|Hc].
  - split; [assumption|]. rewrite (L1 Hc) in Hs. now injection Hs.
  - rewrite (L2 Hc) in Hs. discriminate.
Qed.

(** X9.  For a summarized column whose non-NULL cells are numbers: with no
    non-NULL cell the count is 0 and minimum, maximum, mean and standard
    deviation are all undefined; otherwise minimum and maximum are cells of
    the column and every non-NULL cell of the column lies between them. *)
Theorem numeric_summary_min_max (fsqrt : Q -> Q) (df : DataFrame) (m : metrics)
    (c : string) (stats : column_stats) :
  assess_quality fsqrt df = Ok m ->
  assoc c (numeric_summary m) = Some stats ->
  (forall r v, In r (rows df) -> cell_at df r c = Some v ->
     exists q, numeric_of v = Some q) ->
  ((forall r, In r (rows df) -> cell_at df r c = None) ->
   stat_count stats = 0%Z /\ stat_min stats = None /\ stat_max stats = None
   /\ stat_mean stats = None /\ stat_stddev stats = None)
  /\ ((exists r, In r (rows df) /\ cell_at df r c <> None) ->
      exists lo hi,
        stat_min stats = Some lo /\ stat_max stats = Some hi
        /\ (exists r, In r (rows df) /\ cell_at df r c = Some lo)
        /\ (exists r, In r (rows df) /\ cell_at df r c = Some hi)
        /\ forall r v, In r (rows df) -> cell_at df r c = Some v ->
             num_le lo v /\ num_le v hi).
Proof.
  intros Hm Hs Hnum.
  destruct (numeric_summary_entry fsqrt df c Hm Hs) as [Hc ->].
  destruct (index_of_In c (columns df) (numeric_columns_columns df c Hc))
    as [i Hi].
  assert (Hcell : forall r, cell_at df r c = get r i).
  { intro r. unfold cell_at. now rewrite Hi. }
  unfold summarize, select_stats. simpl. rewrite Hi.
  destruct (column_values df i) as [|a l] eqn:Ev.
  - split; [intros _; repeat split|].
    intros [r [Hr Hn]]. exfalso. rewrite Hcell in Hn.
    destruct (get r i) as [v|] eqn:Eg; [|now apply Hn].
    assert (Hin : In v (column_values df i)).
    { apply column_values_In. eauto. }
    rewrite Ev in Hin. contradiction.
  - assert (Hall : forall v, In v (a :: l) -> exists q, numeric_of v = Some q).
    { intros v Hv. rewrite <- Ev in Hv. apply column_values_In in Hv.
      destruct Hv as [r [Hr Hg]]. apply (Hnum r v Hr). now rewrite Hcell. }
    split.
    + intro Hnone. exfalso.
      assert (Hin : In a (column_values df i)) by (rewrite Ev; now left).
      apply column_values_In in Hin as [r [Hr Hg]].
      specialize (Hnone r Hr). rewrite Hcell in Hnone. congruence.
    + intros _. simpl agg_min. simpl agg_max.
      destruct (@fold_min_spec l a Hall) as [Imin Lmin].
      destruct (@fold_max_spec l a Hall) as [Imax Lmax].
      do 2 eexists. split; [reflexivity|]. split; [reflexivity|].
      rewrite <- Ev in Imin, Imax.
      apply column_values_In in Imin as [r1 [Hr1 Hg1]].
      apply column_values_In in Imax as [r2 [Hr2 Hg2]].
      split; [exists r1; now rewrite Hcell|].
      split; [exists r2; now rewrite Hcell|].
      intros r v Hr Hv. rewrite Hcell in Hv.
      assert (Hin : In v (a :: l)).
      { rewrite <- Ev. apply column_values_In. eauto. }
      split; [now apply Lmin | now apply Lmax].
Qed.

(** ** The cleaner *)


Lemma bind_ext_ok {A B : Type} (m : io A) (f g : A -> io B) :
  (forall a, outcome m = Ok a -> f a = g a) -> bind m f = bind m g.
Proof.
  intro H. destruct m as [out [a|e]]; simpl; [|reflexivity].
  now rewrite (H a eq_refl).
Qed.

Lemma bind_outcome {A B : Type} (m m' : io A) (f : A -> io B) :
  outcome m = outcome m' -> outcome (bind m f) = outcome (bind m' f).
Proof.
  destruct m as [o [a|e]], m' as [o' [a'|e']]; simpl; intro H;
    try discriminate; injection H as <-; [|reflexivity].
  now destruct (f a).
Qed.

Lemma bind_raise {A B : Type} (m : io A) (f : A -> io B) (e : exn) :
  outcome m = Raise e -> bind m f = (stdout m, Raise e).
Proof. destruct m as [o [a|e']]; simpl; intro H; congruence. Qed.

Lemma bind_stdout_ok {A B : Type} (m : io A) (f : A -> io B) (a : A) :
  outcome m = Ok a -> stdout (bind m f) = stdout m ++ stdout (f a).
Proof.
  destruct m as [o [a'|e]]; simpl; intro H; [|discriminate].
  injection H as ->. now destruct (f a).
Qed.

Lemma bind_outcome_ok {A B : Type} (m : io A) (f : A -> io B) (a : A) :
  outcome m = Ok a -> outcome (bind m f) = outcome (f a).
Proof.
  destruct m as [o [a'|e]]; simpl; intro H; [|discriminate].
  injection H as ->. now destruct (f a).
Qed.

Lemma refines_refl (s : DataFrame) : refines s s.
Proof. unfold refines. repeat split; auto. lia. Qed.

Lemma refines_trans (a b c : DataFrame) :
  refines a b -> refines b c -> refines a c.
Proof.
  intros [A1 [A2 [A3 A4]]] [B1 [B2 [B3 B4]]]. unfold refines.
  repeat split; auto; [congruence | lia].
Qed.

Lemma remove_outliers_step_refines (df : DataFrame)
    (rule : string * (Q * Q)) (out : DataFrame) :
  outcome (remove_outliers_step df rule) = Ok out -> refines df out.
Proof.
  destruct rule as [column [lo hi]].
  destruct (index_of column (columns df)) as [i|] eqn:E.
  - rewrite (remove_outliers_step_eq df column lo hi E). simpl.
    intro H. injection H as <-. unfold refines. repeat split.
    + intros r Hr. now apply filter_rows_In in Hr.
    + intro Hnd. simpl. now apply NoDup_filter.
    + apply filter_rows_count.
  - rewrite (remove_outliers_step_raises df column lo hi E). discriminate.
Qed.

Lemma dropDuplicates_refines (df : DataFrame) : refines df (dropDuplicates df).
Proof.
  unfold refines, dropDuplicates, count. simpl. repeat split.
  - intros r Hr. now apply distinct_In.
  - intros _. apply distinct_NoDup.
  - apply inj_le, distinct_length.
Qed.

(** X10.  Duplicate removal alone returns the table without its repeated
    rows: no two remaining rows are equal, every row of the input is still
    there, and the printed count is the number of rows removed.  With
    outlier rules on top, the returned table still has no two equal rows
    and holds only rows of the input. *)
Theorem clean_data_removes_duplicates (cast_text : value -> dtype -> cell)
    (df : DataFrame) :
  (exists out,
     clean_data cast_text df true None None
     = ([MsgRemovedDuplicates (count df - count out)], Ok out)
     /\ schema out = schema df
     /\ NoDup (rows out)
     /\ (forall r, In r (rows out) <-> In r (rows df))
     /\ (0 <= count df - count out)%Z)
  /\ (forall remove_outliers out,
        outcome (clean_data cast_text df true remove_outliers None) = Ok out ->
        NoDup (rows out) /\ forall r, In r (rows out) -> In r (rows df)).
Proof.
  split.
  - exists (dropDuplicates df). split; [reflexivity|].
    split; [reflexivity|]. split; [apply distinct_NoDup|].
    split; [intro r; apply distinct_In|].
    pose proof (dropDuplicates_refines df) as [_ [_ [_ H]]]. lia.
  - intros ro out H. unfold clean_data in H.
    apply bind_ok in H as [d1 [H1 H]].
    apply bind_ok in H as [d2 [H2 H]].
    apply bind_ok in H as [d3 [H3 H]].
    injection H as <-. injection H3 as <-.
    simpl in H1. injection H1 as <-.
    assert (R : refines (dropDuplicates df) d2).
    { destruct ro as [rules|].
      - revert H2. apply (for_each_preserves refines).
        + apply refines_refl.
        + apply refines_trans.
        + apply remove_outliers_step_refines.
      - injection H2 as <-. apply refines_refl. }
    destruct R as [_ [R2 [R3 _]]]. split.
    + apply R3, distinct_NoDup.
    + intros r Hr. apply R2 in Hr.
      exact (proj1 (distinct_In (rows df) r) Hr).
Qed.

Lemma index_of_None (c : string) (names : list string) :
  ~ In c names -> index_of c names = None.
Proof.
  intro H. destruct (index_of c names) as [i|] eqn:E; [|reflexivity].
  exfalso. apply H. now apply index_of_Some_In with i.
Qed.

Lemma bind_pair_ok {A B : Type} (out : list message) (a : A) (f : A -> io B) :
  bind (out, Ok a) f = (out ++ stdout (f a), outcome (f a)).
Proof. simpl. now destruct (f a). Qed.



Lemma standardize_column_unknown (cast_text : value -> dtype -> cell)
    (df : DataFrame) (column : string) (rules : list (pattern * value)) :
  ~ In column (columns df) ->
  standardize_column cast_text df (column, rules) = ret df.
Proof.
  intro H. unfold standardize_column. now rewrite (index_of_None _ _ H).
Qed.

Lemma existsb_eqb_In (c : string) (names : list string) :
  existsb (String.eqb c) names = true <-> In c names.
Proof.
  rewrite existsb_exists. split.
  - intros [x [Hin Heq]]. apply String.eqb_eq in Heq. now subst.
  - intro H. exists c. split; [assumption | apply String.eqb_refl].
Qed.

Lemma for_each_known_entries (cast_text : value -> dtype -> cell)
    (df : DataFrame) (entries : list (string * list (pattern * value))) :
  forall d, columns d = columns df ->
  for_each entries (standardize_column cast_text) d
  = for_each (known_entries df entries) (standardize_column cast_text) d.
Proof.
  induction entries as [|[column rules] entries IH]; intros d Hd;
    [reflexivity|].
  unfold known_entries. simpl filter.
  destruct (existsb (String.eqb column) (columns df)) eqn:E.
  - rewrite !for_each_cons. apply bind_ext_ok. intros d' Hd'.
    apply IH. apply standardize_column_columns in Hd'.
    unfold same_columns in Hd'. congruence.
  - rewrite for_each_cons, standardize_column_unknown, bind_ret_l.
    + now apply IH.
    + rewrite Hd. intro Hin. apply existsb_eqb_In in Hin. congruence.
Qed.

(** X12.  Standardization entries for names that are not columns of the
    table are skipped without any error or output: the cleaner does exactly
    what it does with those entries left out. *)
Theorem clean_data_skips_unknown_columns (cast_text : value -> dtype -> cell)
    (df : DataFrame) (remove_duplicates : bool)
    (remove_outliers : option (list (string * (Q * Q))))
    (entries : list (string * list (pattern * value))) :
  clean_data cast_text df remove_duplicates remove_outliers (Some entries)
  = clean_data cast_text df remove_duplicates remove_outliers
               (Some (known_entries df entries)).
Proof.
  unfold clean_data. apply bind_ext_ok. intros d1 H1.
  apply bind_ext_ok. intros d2 H2.
  rewrite (for_each_known_entries cast_text df entries d2); [reflexivity|].
  assert (S1 : columns d1 = columns df).
  { destruct remove_duplicates; simpl in H1; injection H1 as <-; reflexivity. }
  rewrite <- S1. destruct remove_outliers as [rules|].
  - revert H2. apply (for_each_preserves same_columns).
    + apply same_columns_refl.
    + apply same_columns_trans.
    + apply remove_outliers_step_columns.
  - now injection H2 as <-.
Qed.

Lemma filter_twice {A : Type} (f g : A -> bool) (l : list A) :
  filter f (filter g l) = filter (fun x => g x && f x) l.
Proof.
  induction l as [|x l IH]; simpl; [reflexivity|].
  destruct (g x); simpl; [|exact IH].
  destruct (f x); now rewrite IH.
Qed.

Lemma forallb_permutation {A : Type} (f : A -> bool) (l l' : list A) :
  Permutation l l' -> forallb f l = forallb f l'.
Proof.
  induction 1 as [|x l l' _ IH|x y l|l l' l'' _ IH1 _ IH2]; simpl.
  - reflexivity.
  - now rewrite IH.
  - destruct (f x), (f y); reflexivity.
  - congruence.
Qed.

Lemma forallb_same {A : Type} (f g : A -> bool) (l : list A) :
  (forall x, f x = g x) -> forallb f l = forallb g l.
Proof.
  intro H. induction l as [|x l IH]; simpl; [reflexivity|].
  now rewrite H, IH.
Qed.

Lemma rule_holds_schema (df df' : DataFrame) (r : row)
    (rule : string * (Q * Q)) :
  schema df' = schema df -> rule_holds df' r rule = rule_holds df r rule.
Proof.
  intro H. destruct rule as [c [lo hi]]. unfold rule_holds, columns.
  now rewrite H.
Qed.

(** The table left by a list of outlier rules holds the rows that satisfy
    all of them. *)
Lemma remove_outliers_rows (rules : list (string * (Q * Q))) :
  forall df,
  (forall rule, In rule rules -> In (fst rule) (columns df)) ->
  outcome (for_each rules remove_outliers_step df)
  = Ok {| schema := schema df;
          rows := filter (fun r => forallb (rule_holds df r) rules)
                         (rows df) |}.
Proof.
  induction rules as [|[column [lo hi]] rules IH]; intros df Hcols.
  - simpl. destruct df as [sch rs]. simpl. f_equal. f_equal.
    induction rs as [|r rs IHr]; simpl; [reflexivity | now rewrite <- IHr].
  - destruct (index_of_In column (columns df)) as [i Hi].
    { apply (Hcols (column, (lo, hi))). now left. }
    rewrite for_each_cons, (remove_outliers_step_eq df column lo hi Hi).
    rewrite bind_pair_ok. unfold outcome at 1. simpl snd.
    rewrite IH.
    + f_equal. unfold filter_rows. simpl. f_equal.
      rewrite filter_twice. apply filter_ext. intro r.
      rewrite Hi. apply (f_equal (andb _)). apply forallb_same. intro rule.
      now apply rule_holds_schema.
    + intros rule Hin. apply (Hcols rule). now right.
Qed.

Lemma bind_outcome_ext {A B : Type} (m : io A) (f g : A -> io B) :
  (forall a, outcome m = Ok a -> outcome (f a) = outcome (g a)) ->
  outcome (bind m f) = outcome (bind m g).
Proof.
  intro H. destruct m as [o [a|e]]; simpl; [|reflexivity].
  specialize (H a eq_refl). now destruct (f a), (g a).
Qed.

(** X13.  The table the cleaner returns does not depend on the order of
    the outlier rules: when every rule names a column, two rule mappings
    holding the same rules in different orders give the same outcome (the
    printed counts may differ). *)
Theorem clean_data_outlier_order_irrelevant
    (cast_text : value -> dtype -> cell) (df : DataFrame)
    (remove_duplicates : bool) (rules rules' : list (string * (Q * Q)))
    (standardize_categories : option (list (string * list (pattern * value)))) :
  Permutation rules rules' ->
  (forall rule, In rule rules -> In (fst rule) (columns df)) ->
  outcome (clean_data cast_text df remove_duplicates (Some rules)
                      standardize_categories)
  = outcome (clean_data cast_text df remove_duplicates (Some rules')
                        standardize_categories).
Proof.
  intros Hp Hcols. unfold clean_data.
  apply bind_outcome_ext. intros d1 H1.
  apply bind_outcome.
  assert (S1 : columns d1 = columns df).
  { destruct remove_duplicates; simpl in H1; injection H1 as <-; reflexivity. }
  rewrite !remove_outliers_rows.
  - f_equal. f_equal. apply filter_ext. intro r.
    now apply forallb_permutation.
  - intros rule Hin. rewrite S1. apply Hcols.
    eapply Permutation_in; [apply Permutation_sym|]; eassumption.
  - intros rule Hin. rewrite S1. now apply Hcols.
Qed.

Lemma update_length {A : Type} (i : nat) (g : A -> A) (l : list A) :
  List.length (update i g l) = List.length l.
Proof.
  revert i. induction l as [|x l IH]; intros [|i]; simpl; auto.
Qed.

Lemma with_column_when_rows (cast_text : value -> dtype -> cell)
    (df : DataFrame) (i : nat) (cond : cell -> option bool) (v : value)
    (out : DataFrame) :
  with_column_when cast_text df i cond v = Ok out -> count out = count df.
Proof.
  unfold with_column_when, rbind.
  destruct (wider_type (type_of v) (col_type df i)) as [t|e]; [|discriminate].
  intro H. injection H as <-. unfold count. simpl. now rewrite length_map.
Qed.

Lemma standardize_rule_count (cast_text : value -> dtype -> cell) (i : nat)
    (df : DataFrame) (rule : pattern * value) (out : DataFrame) :
  outcome (standardize_rule cast_text i df rule) = Ok out ->
  count out = count df.
Proof.
  destruct rule as [[p|p] v]; unfold standardize_rule.
  - destruct (comparable (col_type df i) (type_of p)); [|discriminate].
    intro H. exact (with_column_when_rows _ _ _ _ _ H).
  - intro H. exact (with_column_when_rows _ _ _ _ _ H).
Qed.

Lemma standardize_column_count (cast_text : value -> dtype -> cell)
    (df : DataFrame) (entry : string * list (pattern * value))
    (out : DataFrame) :
  outcome (standardize_column cast_text df entry) = Ok out ->
  count out = count df.
Proof.
  destruct entry as [column rules]. unfold standardize_column.
  destruct (index_of column (columns df)) as [i|].
  - apply (for_each_preserves (fun s s' => count s' = count s)).
    + reflexivity.
    + intros; congruence.
    + intros s x s'. apply standardize_rule_count.
  - simpl. intro H. now injection H as <-.
Qed.

(** X14.  The cleaner never adds rows: a returned table has at most as
    many rows as the input, whatever the options; with standardization
    alone it has exactly as many. *)
Theorem clean_data_row_count (cast_text : value -> dtype -> cell)
    (df : DataFrame) :
  (forall remove_duplicates remove_outliers standardize_categories out,
     outcome (clean_data cast_text df remove_duplicates remove_outliers
                         standardize_categories) = Ok out ->
     (count out <= count df)%Z)
  /\ (forall standardize_categories out,
        outcome (clean_data cast_text df false None standardize_categories)
        = Ok out ->
        count out = count df).
Proof.
  assert (Hstd : forall sc d out,
    outcome (match sc with
             | Some entries => for_each entries (standardize_column cast_text) d
             | None => ret d
             end) = Ok out -> count out = count d).
  { intros [entries|] d out.
    - apply (for_each_preserves (fun s s' => count s' = count s)).
      + reflexivity.
      + intros; congruence.
      + intros s x s'. apply standardize_column_count.
    - simpl. intro H. now injection H as <-. }
  split.
  - intros rd ro sc out H. unfold clean_data in H.
    apply bind_ok in H as [d1 [H1 H]].
    apply bind_ok in H as [d2 [H2 H]].
    apply bind_ok in H as [d3 [H3 H]].
    injection H as <-. apply Hstd in H3.
    assert (S1 : (count d1 <= count df)%Z).
    { destruct rd; simpl in H1; injection H1 as <-; [|lia].
      apply dropDuplicates_refines. }
    assert (S2 : (count d2 <= count d1)%Z).
    { destruct ro as [rules|].
      - revert H2. apply (for_each_preserves no_more_rows).
        + intro s. unfold no_more_rows. lia.
        + unfold no_more_rows. intros; lia.
        + intros s x s' Hs. apply remove_outliers_step_refines in Hs.
          exact (proj2 (proj2 (proj2 Hs))).
      - injection H2 as <-. lia. }
    lia.
  - intros sc out H. unfold clean_data in H.
    apply bind_ok in H as [d1 [H1 H]].
    apply bind_ok in H as [d2 [H2 H]].
    apply bind_ok in H as [d3 [H3 H]].
    injection H as <-. apply Hstd in H3.
    simpl in H1, H2. injection H1 as <-. injection H2 as <-. exact H3.
Qed.

(** ** Standardization of a text column *)

Lemma update_same {A : Type} (i : nat) (g : A -> A) (l : list A) :
  (forall x, nth_error l i = Some x -> g x = x) -> update i g l = l.
Proof.
  revert i. induction l as [|y l IH]; intros [|i] H; simpl; try reflexivity.
  - now rewrite (H y eq_refl).
  - now rewrite IH.
Qed.

Lemma update_ext {A : Type} (i : nat) (g g' : A -> A) (l : list A) :
  (forall x, nth_error l i = Some x -> g x = g' x) ->
  update i g l = update i g' l.
Proof.
  revert i. induction l as [|y l IH]; intros [|i] H; simpl; try reflexivity.
  - now rewrite (H y eq_refl).
  - now rewrite (IH i H).
Qed.

Lemma update_update {A : Type} (i : nat) (g g' : A -> A) (l : list A) :
  update i g' (update i g l) = update i (fun x => g' (g x)) l.
Proof.
  revert i. induction l as [|y l IH]; intros [|i]; simpl; try reflexivity.
  now rewrite IH.
Qed.

Lemma get_update (i j : nat) (g : cell -> cell) (r : row) :
  get (update i g r) j
  = if Nat.eqb i j
    then (if Nat.ltb i (List.length r) then g (get r i) else None)
    else get r j.
Proof.
  unfold get. revert i j. induction r as [|c r IH]; intros [|i] [|j]; simpl;
    try reflexivity.
  - destruct (Nat.eqb i j); reflexivity.
  - rewrite IH. destruct (Nat.eqb i j); [|reflexivity].
    reflexivity.
Qed.

Lemma nth_error_get (r : row) (i : nat) (c : cell) :
  nth_error r i = Some c -> get r i = c.
Proof. intro H. unfold get. now apply nth_error_nth. Qed.

Lemma cast_cell_text (cast_text : value -> dtype -> cell) (c : cell) :
  is_text c -> cast_cell cast_text c StringType = c.
Proof. destruct c as [[]|]; simpl; tauto. Qed.

Lemma cast_text_value (cast_text : value -> dtype -> cell) (v : value) :
  type_of v = StringType -> cast cast_text v StringType = Some v.
Proof. destruct v; simpl; intro H; try discriminate; reflexivity. Qed.

Lemma apply_rules_cons (rule : pattern * value) (rules : list (pattern * value))
    (c : cell) :
  apply_rules (rule :: rules) c = apply_rules rules (rule_step rule c).
Proof. reflexivity. Qed.

Lemma rule_step_text (rule : pattern * value) (c : cell) :
  text_rule rule -> is_text c -> is_text (rule_step rule c).
Proof.
  intros [Hv _] Hc. unfold rule_step.
  destruct (rule_cond (fst rule) c) as [[|]|]; try assumption.
  destruct (snd rule); simpl in *; try discriminate. exact I.
Qed.

Lemma standardize_rule_text (cast_text : value -> dtype -> cell) (i : nat)
    (df : DataFrame) (rule : pattern * value) :
  col_type df i = StringType ->
  text_rule rule ->
  (forall r, In r (rows df) -> is_text (get r i)) ->
  standardize_rule cast_text i df rule
  = ([], Ok {| schema := schema df;
               rows := map (update i (rule_step rule)) (rows df) |}).
Proof.
  intros Ht [Hv Hp] Htext.
  assert (Hsch : update i (fun f => {| name := name f; dataType := StringType |})
                        (schema df) = schema df).
  { apply update_same. intros f Hf. unfold col_type in Ht. rewrite Hf in Ht.
    destruct f as [n t]. simpl in *. now subst. }
  assert (Hrows : forall cond,
    (forall c, cond c = rule_cond (fst rule) c) ->
    map (update i (fun c => match cond c with
                            | Some true => cast cast_text (snd rule) StringType
                            | _ => cast_cell cast_text c StringType
                            end)) (rows df)
    = map (update i (rule_step rule)) (rows df)).
  { intros cond Hcond. apply map_ext_in. intros r Hr. apply update_ext.
    intros c Hc. apply nth_error_get in Hc. unfold rule_step.
    rewrite Hcond, (cast_text_value cast_text _ Hv).
    assert (Hc' : is_text c) by (rewrite <- Hc; now apply Htext).
    rewrite (cast_cell_text cast_text c Hc').
    reflexivity. }
  destruct rule as [[l|p] v]; simpl in Hv, Hp; unfold standardize_rule.
  - rewrite Ht, Hp. simpl comparable. cbv iota.
    unfold with_column_when. rewrite Ht, Hv. simpl wider_type. simpl rbind.
    rewrite Hsch. unfold lift.
    rewrite <- (Hrows (sql_eq cast_text StringType l)); [reflexivity|].
    intro c. unfold sql_eq. rewrite Hp. reflexivity.
  - unfold with_column_when. rewrite Ht, Hv. simpl wider_type. simpl rbind.
    rewrite Hsch. unfold lift.
    rewrite <- (Hrows p); reflexivity.
Qed.

Lemma standardize_rules_text (cast_text : value -> dtype -> cell) (i : nat)
    (rules : list (pattern * value)) :
  forall df,
  col_type df i = StringType ->
  Forall text_rule rules ->
  (forall r, In r (rows df) -> is_text (get r i)) ->
  for_each rules (standardize_rule cast_text i) df
  = ([], Ok {| schema := schema df;
               rows := map (update i (apply_rules rules)) (rows df) |}).
Proof.
  induction rules as [|rule rules IH]; intros df Ht Hrules Htext.
  - simpl. unfold ret. f_equal. f_equal. destruct df as [sch rs]. simpl.
    f_equal. rewrite <- (map_id rs) at 1. apply map_ext. intro r.
    symmetry. now apply update_same.
  - inversion Hrules as [|? ? Hr Hrs]; subst.
    rewrite for_each_cons, (standardize_rule_text cast_text i df Ht Hr Htext).
    rewrite bind_pair_ok, IH; try assumption.
    + simpl. f_equal. f_equal. f_equal. rewrite map_map.
      apply map_ext. intro r. now rewrite update_update.
    + simpl. intros r Hin. apply in_map_iff in Hin as [r0 [<- Hr0]].
      rewrite get_update, Nat.eqb_refl.
      destruct (Nat.ltb i (List.length r0)); [|exact I].
      apply rule_step_text; [assumption | now apply Htext].
Qed.

(** X15.  On a text column whose cells are text or NULL, with rules that
    write text and whose literal keys are text, standardization raises
    nothing and prints nothing; it keeps the schema and the number of rows,
    leaves every other column as it is, and gives each cell of the column
    the result of the rules applied in order, a later rule testing the
    value an earlier rule wrote. *)
Theorem standardize_text_column (cast_text : value -> dtype -> cell)
    (df : DataFrame) (column : string) (i : nat)
    (rules : list (pattern * value)) :
  index_of column (columns df) = Some i ->
  col_type df i = StringType ->
  (forall r, In r (rows df) -> is_text (get r i)) ->
  Forall text_rule rules ->
  clean_data cast_text df false None (Some [(column, rules)])
  = ([], Ok {| schema := schema df;
               rows := map (update i (apply_rules rules)) (rows df) |})
  /\ forall r,
       List.length (update i (apply_rules rules) r) = List.length r
       /\ (forall j, j <> i -> get (update i (apply_rules rules) r) j = get r j)
       /\ ((i < List.length r)%nat ->
           get (update i (apply_rules rules) r) i = apply_rules rules (get r i)).
Proof.
  intros Hi Ht Htext Hrules. split.
  - unfold clean_data. rewrite !bind_ret_l.
    rewrite for_each_cons. unfold standardize_column at 1. rewrite Hi.
    rewrite (standardize_rules_text cast_text i df Ht Hrules Htext).
    reflexivity.
  - intro r. split; [apply update_length|]. split.
    + intros j Hj. rewrite get_update.
      destruct (Nat.eqb_spec i j); [congruence | reflexivity].
    + intro Hlt. rewrite get_update, Nat.eqb_refl.
      apply Nat.ltb_lt in Hlt. now rewrite Hlt.
Qed.

(** ** The missing-value handler *)

Lemma row_filled_refl (r : row) : row_filled r r.
Proof. split; auto. Qed.

Lemma row_filled_trans (a b c : row) :
  row_filled a b -> row_filled b c -> row_filled a c.
Proof. intros [A1 A2] [B1 B2]. split; [congruence | auto]. Qed.

Lemma filled_refl (s : DataFrame) : filled s s.
Proof.
  split; [reflexivity|]. induction (rows s); constructor;
    [apply row_filled_refl | assumption].
Qed.

Lemma Forall2_trans {A : Type} (R : A -> A -> Prop) :
  (forall a b c, R a b -> R b c -> R a c) ->
  forall l1 l2 l3, Forall2 R l1 l2 -> Forall2 R l2 l3 -> Forall2 R l1 l3.
Proof.
  intros Ht l1 l2 l3 H12. revert l3.
  induction H12 as [|a b l1 l2 Hab H12 IH]; intros l3 H23;
    inversion H23; subst; constructor; eauto.
Qed.

Lemma filled_trans (a b c : DataFrame) :
  filled a b -> filled b c -> filled a c.
Proof.
  intros [A1 A2] [B1 B2]. split; [congruence|].
  eapply Forall2_trans; [apply row_filled_trans | eassumption | eassumption].
Qed.

Lemma filled_count (s s' : DataFrame) : filled s s' -> count s' = count s.
Proof.
  intros [_ H]. unfold count. apply Forall2_length in H. now rewrite H.
Qed.

(** What [fill_row] puts at one position. *)
Lemma fill_row_nth (cast_text : value -> dtype -> cell)
    (values : list (string * value)) (fs : list field) :
  forall (r : row) (j : nat) (f : field) (c : cell),
  nth_error fs j = Some f -> nth_error r j = Some c ->
  nth_error (fill_row cast_text fs values r) j
  = Some (match assoc (name f) values with
          | Some v => coalesce c (cast cast_text v (dataType f))
          | None => c
          end).
Proof.
  induction fs as [|f0 fs IH]; intros r j f c Hf Hc.
  - destruct j; discriminate.
  - destruct r as [|c0 r]; [destruct j; discriminate|].
    destruct j as [|j]; simpl in *.
    + injection Hf as <-. injection Hc as <-. reflexivity.
    + now apply IH.
Qed.

Lemma fill_row_filled (cast_text : value -> dtype -> cell)
    (values : list (string * value)) (fs : list field) (r : row) :
  row_filled r (fill_row cast_text fs values r).
Proof.
  revert r. induction fs as [|f fs IH]; intro r; [apply row_filled_refl|].
  destruct r as [|c r]; [apply row_filled_refl|].
  destruct (IH r) as [Hl Hv]. simpl. split; [simpl; congruence|].
  intros [|j] v; unfold get in *; simpl.
  - intros ->. now destruct (assoc (name f) values).
  - apply Hv.
Qed.

Lemma na_fill_filled (cast_text : value -> dtype -> cell)
    (values : list (string * value)) (df out : DataFrame) :
  na_fill cast_text values df = Ok out -> filled df out.
Proof.
  unfold na_fill. destruct (find _ values); [discriminate|].
  intro H. injection H as <-. split; [reflexivity|]. simpl.
  induction (rows df) as [|r rs IH]; simpl; constructor;
    [apply fill_row_filled | assumption].
Qed.

Lemma impute_column_filled (cast_text : value -> dtype -> cell)
    (strategy : string) (df : DataFrame) (column : string) (out : DataFrame) :
  outcome (impute_column cast_text strategy df column) = Ok out ->
  filled df out.
Proof.
  unfold impute_column. intro H.
  apply bind_ok in H as [stat [_ H]].
  destruct stat as [v|].
  - apply bind_ok in H as [d [H1 H]].
    apply bind_ok in H as [u [_ H]]. injection H as <-.
    exact (na_fill_filled _ _ _ H1).
  - injection H as <-. apply filled_refl.
Qed.

(** X16.  Unless the strategy is "drop", and with no threshold, the handler
    only fills: a returned table has the input's schema and row count, each
    row keeps its length, and every value present in the input is still in
    its place.  (Doubles are rationals here: NaN, which the engine's fill
    treats like NULL, does not occur.) *)
Theorem handle_missing_values_only_fills (cast_text : value -> dtype -> cell)
    (df : DataFrame) (strategy : string)
    (fill_values : option (list (string * value))) (out : DataFrame) :
  strategy <> "drop"%string ->
  outcome (handle_missing_values cast_text df strategy fill_values None)
  = Ok out ->
  filled df out /\ count out = count df.
Proof.
  intros Hs H. assert (F : filled df out); [|split; [exact F|]].
  2: now apply filled_count.
  unfold handle_missing_values in H.
  apply bind_ok in H as [d1 [H1 H]].
  apply bind_ok in H as [d2 [H2 H]].
  simpl in H1. injection H1 as <-.
  assert (F2 : filled df d2).
  { destruct fill_values as [[|kv values]|].
    - injection H2 as <-. apply filled_refl.
    - apply bind_ok in H2 as [d [Hf H2]].
      apply bind_ok in H2 as [u [_ H2]]. injection H2 as <-.
      exact (na_fill_filled _ _ _ Hf).
    - injection H2 as <-. apply filled_refl. }
  apply filled_trans with d2; [assumption|].
  destruct (String.eqb_spec strategy "drop"); [contradiction|].
  destruct (String.eqb strategy "zero").
  - destruct (numeric_columns d2) as [|c cols].
    + injection H as <-. apply filled_refl.
    + apply bind_ok in H as [d [Hf H]].
      apply bind_ok in H as [u [_ H]]. injection H as <-.
      exact (na_fill_filled _ _ _ Hf).
  - destruct (existsb (String.eqb strategy) _).
    + revert H. apply (for_each_preserves filled).
      * apply filled_refl.
      * apply filled_trans.
      * intros s x s'. apply impute_column_filled.
    + injection H as <-. apply filled_refl.
Qed.

Lemma no_null_cells (df : DataFrame) (r : row) :
  existsb is_null (cells df r) = false <->
  forall j, (j < List.length (schema df))%nat -> get r j <> None.
Proof.
  unfold cells. split.
  - intros H j Hj Hnull.
    assert (E : existsb is_null (map (get r) (seq 0 (List.length (schema df))))
                = true).
    { apply existsb_exists. exists (get r j). split.
      - apply in_map, in_seq. lia.
      - now rewrite Hnull. }
    congruence.
  - intro H. destruct (existsb is_null _) eqn:E; [|reflexivity].
    apply existsb_exists in E as [c [Hin Hc]].
    apply in_map_iff in Hin as [j [<- Hj]]. apply in_seq in Hj.
    exfalso. apply (H j); [lia|]. now destruct (get r j).
Qed.

Lemma na_drop_In (df : DataFrame) (r : row) :
  In r (rows (na_drop df)) <->
  In r (rows df)
  /\ forall j, (j < List.length (schema df))%nat -> get r j <> None.
Proof.
  unfold na_drop. simpl. rewrite filter_In, negb_true_iff, no_null_cells.
  reflexivity.
Qed.

Lemma fill_step_schema (cast_text : value -> dtype -> cell)
    (fill_values : option (list (string * value))) (d d' : DataFrame) :
  outcome (match fill_values with
           | Some ((_ :: _) as values) =>
             bind (lift (na_fill cast_text values d)) (fun filled_df =>
             bind (print (MsgFilledCustom (map fst values))) (fun _ =>
             ret filled_df))
           | _ => ret d
           end) = Ok d' ->
  schema d' = schema d.
Proof.
  destruct fill_values as [[|kv values]|]; intro H.
  - now injection H as <-.
  - apply bind_ok in H as [d0 [Hf H]].
    apply bind_ok in H as [u [_ H]]. injection H as <-.
    exact (na_fill_schema _ _ _ Hf).
  - now injection H as <-.
Qed.

(** X17.  With strategy "drop" a returned table has no NULL in any column
    of any row, whatever the explicit fills and the threshold; with neither
    of them the handler keeps exactly the rows of the input that have no
    NULL and prints how many rows it removed. *)
Theorem handle_missing_values_drop (cast_text : value -> dtype -> cell)
    (df : DataFrame) :
  (exists out,
     handle_missing_values cast_text df "drop" None None
     = ([MsgDroppedMissing (count df - count out)], Ok out)
     /\ schema out = schema df
     /\ forall r, In r (rows out) <->
          In r (rows df)
          /\ forall j, (j < List.length (schema df))%nat -> get r j <> None)
  /\ (forall fill_values drop_threshold out,
        outcome (handle_missing_values cast_text df "drop" fill_values
                                       drop_threshold) = Ok out ->
        forall r j, In r (rows out) ->
          (j < List.length (schema df))%nat -> get r j <> None).
Proof.
  split.
  - exists (na_drop df). split; [reflexivity|]. split; [reflexivity|].
    intro r. apply na_drop_In.
  - intros fv dt out H r j Hr Hj. unfold handle_missing_values in H.
    apply bind_ok in H as [d1 [H1 H]].
    apply bind_ok in H as [d2 [H2 H]].
    apply threshold_filter_rows in H1 as [S1 _].
    apply fill_step_schema in H2.
    change (String.eqb "drop" "drop") with true in H. cbv iota in H.
    apply bind_ok in H as [u [_ H]]. injection H as <-.
    apply na_drop_In in Hr as [_ Hr]. apply Hr. congruence.
Qed.

Lemma assoc_constant_map {A : Type} (v : A) (cs : list string) (c : string) :
  In c cs -> assoc c (map (fun k => (k, v)) cs) = Some v.
Proof.
  induction cs as [|k cs IH]; simpl; [contradiction|].
  intro H. destruct (String.eqb_spec c k); [reflexivity|].
  destruct H as [<-|H]; [contradiction | now apply IH].
Qed.

Lemma cast_number_numeric (cast_text : value -> dtype -> cell) (v : value)
    (t : dtype) :
  is_numeric (type_of v) = true -> is_numeric t = true ->
  cast cast_text v t <> None.
Proof.
  destruct v, t; simpl; intros Hv Ht; try discriminate.
Qed.

(** After [na.fill] with a number, a numeric column named in the fill has
    no NULL in the rows that reach it. *)
Lemma na_fill_numeric (cast_text : value -> dtype -> cell)
    (values : list (string * value)) (df out : DataFrame)
    (r : row) (j : nat) (f : field) (v : value) :
  na_fill cast_text values df = Ok out ->
  In r (rows out) ->
  nth_error (schema df) j = Some f ->
  is_numeric (dataType f) = true ->
  assoc (name f) values = Some v ->
  is_numeric (type_of v) = true ->
  (j < List.length r)%nat ->
  get r j <> None.
Proof.
  unfold na_fill. destruct (find _ values); [discriminate|].
  intro H. injection H as <-. simpl.
  intros Hr Hf Hnum Hassoc Hv Hj.
  apply in_map_iff in Hr as [r0 [<- Hr0]].
  destruct (fill_row_filled cast_text values (schema df) r0) as [Hlen _].
  rewrite Hlen in Hj.
  destruct (nth_error r0 j) as [c|] eqn:Ec;
    [|apply nth_error_None in Ec; lia].
  pose proof (fill_row_nth cast_text values (schema df) r0 j Hf Ec) as Hn.
  rewrite Hassoc in Hn. apply nth_error_get in Hn. rewrite Hn.
  destruct c as [w|]; simpl; [discriminate|].
  now apply cast_number_numeric.
Qed.

(** X18.  With strategy "zero" a returned table has no NULL left in any
    column whose declared type is numeric, in every row that reaches the
    column, whatever the explicit fills and the threshold. *)
Theorem handle_missing_values_zero (cast_text : value -> dtype -> cell)
    (df : DataFrame) (fill_values : option (list (string * value)))
    (drop_threshold : option Q) (out : DataFrame)
    (r : row) (j : nat) (f : field) :
  outcome (handle_missing_values cast_text df "zero" fill_values
                                 drop_threshold) = Ok out ->
  In r (rows out) ->
  nth_error (schema df) j = Some f ->
  is_numeric (dataType f) = true ->
  (j < List.length r)%nat ->
  get r j <> None.
Proof.
  intros H Hr Hf Hnum Hj. unfold handle_missing_values in H.
  apply bind_ok in H as [d1 [H1 H]].
  apply bind_ok in H as [d2 [H2 H]].
  apply threshold_filter_rows in H1 as [S1 _].
  apply fill_step_schema in H2.
  change (String.eqb "zero" "drop") with false in H.
  change (String.eqb "zero" "zero") with true in H. cbv iota in H.
  assert (Hf2 : nth_error (schema d2) j = Some f) by congruence.
  assert (Hin : In (name f) (numeric_columns d2)).
  { apply numeric_columns_In. exists f. split; [|auto].
    now apply nth_error_In with j. }
  destruct (numeric_columns d2) as [|c cols] eqn:Ecols; [contradiction|].
  apply bind_ok in H as [d [Hfill H]].
  apply bind_ok in H as [u [_ H]]. injection H as <-.
  eapply na_fill_numeric;
    [ exact Hfill | exact Hr | exact Hf2 | exact Hnum
    | apply assoc_constant_map; exact Hin | reflexivity | exact Hj ].
Qed.

(** ** Imputation by median or mean reaches every NULL *)

Lemma index_of_nth (c : string) (names : list string) :
  forall j, index_of c names = Some j -> nth_error names j = Some c.
Proof.
  induction names as [|n names IH]; intros j H; simpl in H; [discriminate|].
  destruct (String.eqb_spec c n) as [->|Hne].
  - injection H as <-. reflexivity.
  - destruct (index_of c names) as [k|]; [|discriminate].
    injection H as <-. simpl. now apply IH.
Qed.

Lemma index_of_NoDup (c : string) (names : list string) :
  NoDup names ->
  forall j, nth_error names j = Some c -> index_of c names = Some j.
Proof.
  induction 1 as [|n names Hn Hnd IH]; intros [|j] H; simpl in *;
    try discriminate.
  - injection H as ->. now rewrite String.eqb_refl.
  - destruct (String.eqb_spec c n) as [->|Hne].
    + exfalso. apply Hn. now apply nth_error_In with j.
    + now rewrite (IH j H).
Qed.

Lemma nth_error_columns (df : DataFrame) (j : nat) (f : field) :
  nth_error (schema df) j = Some f -> nth_error (columns df) j = Some (name f).
Proof. intro H. unfold columns. now rewrite nth_error_map, H. Qed.

Lemma Forall2_In_l {A B : Type} (R : A -> B -> Prop) (l : list A) (l' : list B)
    (x : A) :
  Forall2 R l l' -> In x l -> exists y, In y l' /\ R x y.
Proof.
  induction 1 as [|a b l l' Hab _ IH]; simpl; [contradiction|].
  intros [<-|H]; [exists b; auto|].
  destruct (IH H) as [y [Hy Hr]]. exists y. auto.
Qed.

Lemma Forall2_In_r {A B : Type} (R : A -> B -> Prop) (l : list A) (l' : list B)
    (y : B) :
  Forall2 R l l' -> In y l' -> exists x, In x l /\ R x y.
Proof.
  induction 1 as [|a b l l' Hab _ IH]; simpl; [contradiction|].
  intros [<-|H]; [exists a; auto|].
  destruct (IH H) as [x [Hx Hr]]. exists x. auto.
Qed.

Lemma filled_has_number (s s' : DataFrame) (j : nat) :
  filled s s' -> has_number s j -> has_number s' j.
Proof.
  intros [_ F] [r [v [q [Hr [Hg Hq]]]]].
  destruct (Forall2_In_l r F Hr) as [r' [Hr' [_ Hv]]].
  exists r', v, q. auto.
Qed.

Lemma filled_no_null (s s' : DataFrame) (j : nat) :
  filled s s' ->
  (forall r, In r (rows s) -> get r j <> None) ->
  forall r', In r' (rows s') -> get r' j <> None.
Proof.
  intros [_ F] H r' Hr'.
  destruct (Forall2_In_r r' F Hr') as [r [Hr [_ Hv]]].
  specialize (H r Hr). destruct (get r j) as [v|] eqn:E; [|contradiction].
  rewrite (Hv j v E). discriminate.
Qed.

Lemma filled_rectangular (s s' : DataFrame) :
  filled s s' -> rectangular s -> rectangular s'.
Proof.
  intros [Hs F] H r' Hr'.
  destruct (Forall2_In_r r' F Hr') as [r [Hr [Hl _]]].
  rewrite Hl, Hs. now apply H.
Qed.

Lemma numbers_nonempty (df : DataFrame) (j : nat) :
  has_number df j -> numbers (column_values df j) <> [].
Proof.
  intros [r [v [q [Hr [Hg Hq]]]]] E.
  assert (Hin : In q (numbers (column_values df j))).
  { unfold numbers. apply somes_In. rewrite <- Hq. apply in_map.
    apply column_values_In. eauto. }
  rewrite E in Hin. contradiction.
Qed.

Lemma na_fill_one_ok (cast_text : value -> dtype -> cell) (df : DataFrame)
    (column : string) (v : value) :
  In column (columns df) ->
  exists out, na_fill cast_text [(column, v)] df = Ok out.
Proof.
  intro H. unfold na_fill. simpl find.
  assert (E : existsb (String.eqb column) (columns df) = true)
    by now apply existsb_eqb_In.
  simpl fst. rewrite E. simpl. eauto.
Qed.

(** One column imputed by median or mean. *)
Lemma impute_column_complete (cast_text : value -> dtype -> cell)
    (strategy : string) (df : DataFrame) (column : string) (j : nat)
    (f : field) :
  strategy = "median"%string \/ strategy = "mean"%string ->
  index_of column (columns df) = Some j ->
  nth_error (schema df) j = Some f ->
  is_numeric (dataType f) = true ->
  rectangular df ->
  exists out,
    outcome (impute_column cast_text strategy df column) = Ok out
    /\ filled df out
    /\ (has_number df j -> forall r, In r (rows out) -> get r j <> None).
Proof.
  intros Hs Hj Hf Hnum Hrect.
  assert (Hname : name f = column).
  { apply nth_error_columns in Hf. apply index_of_nth in Hj. congruence. }
  assert (Hstat : exists stat,
    stat_value strategy df column = Ok stat
    /\ (has_number df j ->
        exists v, stat = Some v /\ is_numeric (type_of v) = true)).
  { unfold stat_value, resolve. rewrite Hj. simpl rbind.
    destruct Hs as [-> | ->]; simpl String.eqb; cbv iota.
    - eexists. split; [reflexivity|]. intro Hn.
      apply numbers_nonempty in Hn. unfold median.
      destruct (numbers (column_values df j)); [contradiction|].
      destruct (Nat.even _); eexists; split; reflexivity.
    - eexists. split; [reflexivity|]. intro Hn.
      apply numbers_nonempty in Hn. unfold mean.
      destruct (numbers (column_values df j)); [contradiction|].
      eexists; split; reflexivity. }
  destruct Hstat as [stat [Hstat Hsome]].
  unfold impute_column. rewrite Hstat, bind_lift_ok.
  destruct stat as [v|].
  - destruct (na_fill_one_ok cast_text df column v) as [out Hout].
    { now apply index_of_Some_In with j. }
    exists out. rewrite Hout, bind_lift_ok. simpl.
    pose proof (na_fill_filled _ _ _ Hout) as Hfilled.
    split; [reflexivity|]. split; [assumption|].
    intros Hn r Hr. destruct (Hsome Hn) as [v' [Ev Hv]]. injection Ev as <-.
    eapply na_fill_numeric;
      [ exact Hout | exact Hr | exact Hf | exact Hnum
      | simpl; rewrite Hname, String.eqb_refl; reflexivity | exact Hv | ].
    rewrite (filled_rectangular Hfilled Hrect r Hr).
    destruct Hfilled as [-> _]. apply nth_error_Some. congruence.
  - exists df. split; [reflexivity|]. split; [apply filled_refl|].
    intro Hn. destruct (Hsome Hn) as [v [Ev _]]. discriminate.
Qed.

Lemma impute_loop_complete (cast_text : value -> dtype -> cell)
    (strategy : string) (cs : list string) :
  strategy = "median"%string \/ strategy = "mean"%string ->
  forall df,
  (forall c, In c cs ->
     exists j f, index_of c (columns df) = Some j
                 /\ nth_error (schema df) j = Some f
                 /\ is_numeric (dataType f) = true) ->
  rectangular df ->
  exists out,
    outcome (for_each cs (impute_column cast_text strategy) df) = Ok out
    /\ filled df out
    /\ forall c j, In c cs -> index_of c (columns df) = Some j ->
         has_number df j -> forall r, In r (rows out) -> get r j <> None.
Proof.
  intro Hs. induction cs as [|c cs IH]; intros df Hcols Hrect.
  - exists df. split; [reflexivity|]. split; [apply filled_refl|].
    intros c j [].
  - destruct (Hcols c (or_introl eq_refl)) as [j [f [Hj [Hf Hnum]]]].
    destruct (@impute_column_complete cast_text strategy df c j f Hs Hj Hf Hnum
                Hrect)
      as [d1 [H1 [F1 N1]]].
    assert (S1 : schema d1 = schema df) by apply F1.
    destruct (IH d1) as [out [H2 [F2 N2]]].
    { intros c' Hc'. unfold columns. rewrite S1.
      apply (Hcols c'). now right. }
    { now apply filled_rectangular with df. }
    exists out. split; [|split].
    + rewrite for_each_cons. now rewrite (bind_outcome_ok _ _ H1).
    + now apply filled_trans with d1.
    + intros c' j' [<-|Hc'] Hj' Hn.
      * assert (j' = j) by congruence. subst j'.
        apply (@filled_no_null d1 out j F2). now apply N1.
      * apply (N2 c' j' Hc').
        -- unfold columns. now rewrite S1.
        -- now apply filled_has_number with df.
Qed.

(** X19.  With strategy "median" or "mean", no explicit fill and no
    threshold, on a table with distinct column names and one cell per
    column in every row: the handler returns a table, the input with some
    NULLs filled, in which every numeric column that held a number has no
    NULL left. *)
Theorem handle_missing_values_fills_numeric
    (cast_text : value -> dtype -> cell) (df : DataFrame) (strategy : string) :
  strategy = "median"%string \/ strategy = "mean"%string ->
  NoDup (columns df) ->
  rectangular df ->
  exists out,
    outcome (handle_missing_values cast_text df strategy None None) = Ok out
    /\ filled df out
    /\ forall j f, nth_error (schema df) j = Some f ->
         is_numeric (dataType f) = true ->
         has_number df j ->
         forall r, In r (rows out) -> get r j <> None.
Proof.
  intros Hs Hnd Hrect.
  destruct (@impute_loop_complete cast_text strategy (numeric_columns df) Hs df)
    as [out [Hout [F N]]].
  - intros c Hc. apply numeric_columns_In in Hc as [f [Hf [Hn Ht]]].
    apply In_nth_error in Hf as [j Hj]. exists j, f.
    split; [|auto]. apply index_of_NoDup; [assumption|].
    rewrite <- Hn. now apply nth_error_columns.
  - assumption.
  - exists out. split; [|split; [assumption|]].
    + unfold handle_missing_values. simpl threshold_filter.
      rewrite !bind_ret_l.
      destruct Hs as [-> | ->]; simpl; exact Hout.
    + intros j f Hf Ht Hn. apply (N (name f) j).
      * apply numeric_columns_In. exists f. split; [|auto].
        now apply nth_error_In with j.
      * apply index_of_NoDup; [assumption|]. now apply nth_error_columns.
      * assumption.
Qed.

(** ** The threshold at its ends and outside its range *)







(** X21.  A threshold below 0 or above 1 is ignored without any error or
    output: the handler does exactly what it does with no threshold. *)
Theorem handle_missing_values_threshold_out_of_range
    (cast_text : value -> dtype -> cell) (df : DataFrame) (strategy : string)
    (fill_values : option (list (string * value))) (t : Q) :
  t < 0 \/ 1 < t ->
  handle_missing_values cast_text df strategy fill_values (Some t)
  = handle_missing_values cast_text df strategy fill_values None.
Proof.
  intro H. unfold handle_missing_values.
  now rewrite (threshold_filter_ignored df H).
Qed.

(** ** What the loader passes on *)

(** X22.  For every format other than "csv" the loader ignores [header],
    [infer_schema], [schema] and [mode]; for "csv" with an explicit schema
    it ignores [infer_schema]; and a table is returned only for an existing
    path and a recognized format, is the one the engine's reader produced,
    and comes with the session unchanged. *)
Theorem load_dataset_options
    (spark_read : session -> read_call -> DataFrame + string)
    (spark : session) (file_path format : string) (header infer_schema : bool)
    (schema : option (list field)) (mode : string)
    (kwargs : list (string * string)) :
  (format <> "csv"%string ->
   forall header' infer_schema' schema' mode',
     load_dataset spark_read spark file_path format header' infer_schema'
                  schema' mode' kwargs
     = load_dataset spark_read spark file_path format header infer_schema
                    schema mode kwargs)
  /\ (forall fields infer_schema',
        load_dataset spark_read spark file_path "csv" header infer_schema'
                     (Some fields) mode kwargs
        = load_dataset spark_read spark file_path "csv" header infer_schema
                       (Some fields) mode kwargs)
  /\ (forall df,
        fst (load_dataset spark_read spark file_path format header
                          infer_schema schema mode kwargs) = Ok df ->
        path_exists spark file_path = true
        /\ recognized format = true
        /\ (exists call, spark_read spark call = inl df)
        /\ snd (load_dataset spark_read spark file_path format header
                             infer_schema schema mode kwargs) = spark).
Proof.
  split; [|split].
  - intros Hne header' infer' schema' mode'. unfold load_dataset.
    destruct (String.eqb_spec format "csv"); [contradiction | reflexivity].
  - intros fields infer'. reflexivity.
  - intro df. unfold load_dataset, recognized. simpl existsb.
    destruct (path_exists spark file_path); simpl negb; cbv iota;
      [|discriminate].
    destruct (String.eqb format "csv");
    [|destruct (String.eqb format "parquet");
      [|destruct (String.eqb format "json");
        [|destruct (String.eqb format "orc");
          [|destruct (String.eqb format "avro")]]]];
    simpl; try discriminate;
    (match goal with
     | |- engine (spark_read spark ?c) = Ok df -> _ =>
       destruct (spark_read spark c) as [d|msg] eqn:E; simpl;
       [intro H; injection H as ->; repeat split; eauto | discriminate]
     end).
Qed.

(** ** The printed report *)

Lemma print_missing_ok (total_records : Z) (items : list (string * Z)) :
  total_records <> 0%Z ->
  exists out,
    print_missing total_records items = (out, Ok tt)
    /\ forall column count percentage,
         In (LineMissing column count percentage) out <->
         In (column, count) items /\ (0 < count)%Z
         /\ percentage = (inject_Z count / inject_Z total_records) * 100.
Proof.
  intro Hne. induction items as [|[c n] items [out [Hout Hlines]]]; simpl.
  - exists []. split; [reflexivity|]. simpl. tauto.
  - destruct (Z.eqb_spec total_records 0) as [E|_]; [contradiction|].
    rewrite Hout. destruct (Z.ltb_spec 0 n).
    + eexists. split; [reflexivity|]. intros column count percentage. simpl.
      rewrite Hlines. split.
      * intros [H1|[H1 [H2 H3]]]; [injection H1 as <- <- <-; auto | auto].
      * intros [[H1|H1] [H2 H3]]; [left; injection H1 as <- <-; now subst|].
        right. auto.
    + exists out. split; [reflexivity|]. intros column count percentage.
      rewrite Hlines. split.
      * intros [H1 [H2 H3]]. auto.
      * intros [[H1|H1] [H2 H3]]; [injection H1 as <- <-; lia | auto].
Qed.

Lemma missing_values_entries (df : DataFrame) (c : string) (n : Z) :
  In (c, n) (missing_values_of df) -> (0 <= n <= count df)%Z.
Proof.
  unfold missing_values_of. intro H.
  destruct (dict_of_keys (null_rows df) (columns df) [])
    as [I1 _]; [contradiction|].
  destruct (I1 (c, n) H) as [E _]. simpl in E. rewrite E.
  apply null_rows_range.
Qed.

(** X23.  Printing a report that the assessor returned never raises: the
    lines under "missing values" are exactly those of the columns with a
    positive NULL count, each with [count / total_records * 100], a
    percentage above 0 and at most 100.  On other metrics, with a row count
    of 0 and a positive NULL count first in the dict, printing raises
    [ZeroDivisionError] after the header lines. *)
Theorem print_quality_report_of_assessment (fsqrt : Q -> Q) (df : DataFrame)
    (m : metrics) :
  assess_quality fsqrt df = Ok m ->
  snd (print_quality_report m) = Ok tt
  /\ (forall column count percentage,
        In (LineMissing column count percentage) (fst (print_quality_report m))
        <-> In (column, count) (missing_values m) /\ (0 < count)%Z
            /\ percentage = (inject_Z count / inject_Z (total_records m)) * 100)
  /\ (forall column count percentage,
        In (LineMissing column count percentage) (fst (print_quality_report m))
        -> 0 < percentage /\ percentage <= 100)
  /\ (forall m' column count rest,
        total_records m' = 0%Z -> (0 < count)%Z ->
        missing_values m' = (column, count) :: rest ->
        snd (print_quality_report m') = Raise ZeroDivisionError).
Proof.
  intro Hm.
  assert (Hrec : total_records m = count df /\ total_records m <> 0%Z
                 /\ missing_values m = missing_values_of df).
  { revert Hm. unfold assess_quality.
    destruct (Z.eqb_spec (total_cells df) 0) as [E|E]; [discriminate|].
    intro H. injection H as <-. simpl. repeat split.
    unfold total_cells in E. nia. }
  destruct Hrec as [Hcount [Hne Hmv]].
  destruct (@print_missing_ok (total_records m) (missing_values m) Hne)
    as [out [Hout Hlines]].
  assert (Hin : forall column count percentage,
    In (LineMissing column count percentage) (fst (print_quality_report m))
    <-> In (LineMissing column count percentage) out).
  { intros column count percentage. unfold print_quality_report.
    rewrite Hout. cbn [fst app In]. rewrite !in_app_iff. split.
    - intro H. repeat (destruct H as [H|H]; [discriminate|]).
      destruct H as [H|[H|H]]; [assumption| |].
      + destruct (numeric_summary m) as [|s l]; [contradiction|].
        destruct H as [H|H]; [discriminate|].
        unfold print_numeric in H. apply in_flat_map in H as [x [_ H]].
        simpl in H. repeat (destruct H as [H|H]; [discriminate|]).
        contradiction.
      + destruct H as [H|[]]. discriminate.
    - intro H. do 8 right. now left. }
  split; [|split; [|split]].
  - unfold print_quality_report. now rewrite Hout.
  - intros column count percentage. rewrite Hin. apply Hlines.
  - intros column count percentage H. apply Hin, Hlines in H.
    destruct H as [H1 [H2 ->]]. rewrite Hmv in H1.
    apply missing_values_entries in H1. rewrite <- Hcount in H1.
    assert (Ht : 0 < inject_Z (total_records m)).
    { change 0 with (inject_Z 0). rewrite <- Zlt_Qlt. lia. }
    assert (Hc : 0 < inject_Z count).
    { change 0 with (inject_Z 0). now rewrite <- Zlt_Qlt. }
    assert (Hle : inject_Z count <= inject_Z (total_records m)).
    { rewrite <- Zle_Qle. lia. }
    assert (D0 : 0 < inject_Z count / inject_Z (total_records m)).
    { apply Qlt_shift_div_l; [assumption | lra]. }
    assert (D1 : inject_Z count / inject_Z (total_records m) <= 1).
    { apply Qle_shift_div_r; [assumption | lra]. }
    split; lra.
  - intros m' column count rest H0 Hc Hmv'. unfold print_quality_report.
    rewrite Hmv', H0. simpl.
    destruct (Z.ltb_spec 0 count); [reflexivity | lia].
Qed.

(** ** The further properties on the sample inputs *)

Lemma patients_report_eq : assess_quality sqrt6 patients = Ok patients_report.
Proof. vm_compute. reflexivity. Qed.

Lemma missing_values_lookup_witness :
  assoc "weight"%string (missing_values patients_report)
  = Some (null_rows patients "weight").
Proof.
  apply (proj1 (@missing_values_lookup sqrt6 patients patients_report
                  patients_report_eq) "weight"%string).
  vm_compute. auto.
Defined.

Lemma numeric_summary_counts_witness :
  In "age"%string (numeric_columns patients)
  <-> assoc "age"%string (numeric_summary patients_report) <> None.
Proof.
  apply (proj1 (@numeric_summary_counts sqrt6 patients patients_report
                  patients_report_eq) "age"%string).
Defined.

Lemma duplicate_rows_zero_iff_witness :
  (0 <= duplicate_rows patients_report < total_records patients_report)%Z.
Proof.
  apply (proj1 (@duplicate_rows_zero_iff sqrt6 patients patients_report
                  patients_report_eq)).
Defined.

Lemma patients_ages_are_numbers (r : row) (v : value) :
  In r (rows patients) -> cell_at patients r "age" = Some v ->
  exists q, numeric_of v = Some q.
Proof.
  intros [<-|[<-|[<-|[<-|[<-|[<-|[]]]]]]] H; vm_compute in H;
    try discriminate; injection H as <-; eexists; reflexivity.
Qed.

Lemma numeric_summary_min_max_witness :
  exists lo hi,
    (exists r, In r (rows patients) /\ cell_at patients r "age" = Some lo)
    /\ (exists r, In r (rows patients) /\ cell_at patients r "age" = Some hi)
    /\ forall r v, In r (rows patients) ->
         cell_at patients r "age" = Some v -> num_le lo v /\ num_le v hi.
Proof.
  destruct (proj2 (@numeric_summary_min_max sqrt6 patients patients_report
                     "age"%string
                     {| stat_count := 5; stat_mean := Some (6300 # 100);
                        stat_stddev := Some (5203 # 100);
                        stat_min := Some (VInt 25);
                        stat_max := Some (VInt 150) |}
                     patients_report_eq eq_refl patients_ages_are_numbers))
    as [lo [hi [_ [_ [H1 [H2 H3]]]]]].
  - exists (patient (Some 25%Z) (Some 70%Z) "COVID"). split; [now left|].
    vm_compute. discriminate.
  - exists lo, hi. auto.
Defined.


Lemma clean_data_outlier_order_irrelevant_witness :
  outcome (clean_data no_text_cast patients true (Some age_weight_rules) None)
  = outcome (clean_data no_text_cast patients true
                        (Some (rev age_weight_rules)) None).
Proof.
  apply (@clean_data_outlier_order_irrelevant no_text_cast patients true
           age_weight_rules (rev age_weight_rules) None).
  - apply perm_swap.
  - intros rule [<-|[<-|[]]]; vm_compute; auto.
Defined.

Lemma standardize_text_column_witness :
  clean_data no_text_cast patients false None (Some finding_rules)
  = ([], Ok {| schema := schema patients;
               rows := map (update 2 (apply_rules
                              [(Callable starts_with_covid, VStr "COVID-19")]))
                           (rows patients) |}).
Proof.
  refine (proj1 (@standardize_text_column no_text_cast patients
                   "finding"%string 2%nat
                   [(Callable starts_with_covid, VStr "COVID-19")]
                   eq_refl eq_refl _ _)).
  - intros r [<-|[<-|[<-|[<-|[<-|[<-|[]]]]]]]; exact I.
  - constructor; [split; [reflexivity | exact I] | constructor].
Defined.

Lemma patients_median_filled_eq :
  outcome (handle_missing_values no_text_cast patients "median" None None)
  = Ok patients_median_filled.
Proof. vm_compute. reflexivity. Qed.

Lemma patients_zero_filled_eq :
  outcome (handle_missing_values no_text_cast patients "zero" None None)
  = Ok patients_zero_filled.
Proof. vm_compute. reflexivity. Qed.

Lemma handle_missing_values_only_fills_witness :
  filled patients patients_median_filled
  /\ count patients_median_filled = count patients.
Proof.
  apply (@handle_missing_values_only_fills no_text_cast patients
           "median"%string None patients_median_filled).
  - discriminate.
  - exact patients_median_filled_eq.
Defined.

Lemma handle_missing_values_zero_witness :
  get (patient (Some 0%Z) (Some 0%Z) "Pneumonia") 1 <> None.
Proof.
  apply (@handle_missing_values_zero no_text_cast patients None None
           patients_zero_filled (patient (Some 0%Z) (Some 0%Z) "Pneumonia")
           1%nat {| name := "weight"; dataType := IntegerType |}).
  - exact patients_zero_filled_eq.
  - vm_compute. auto 10.
  - reflexivity.
  - reflexivity.
  - vm_compute. lia.
Defined.

Lemma patients_rectangular : rectangular patients.
Proof. intros r [<-|[<-|[<-|[<-|[<-|[<-|[]]]]]]]; reflexivity. Qed.

Lemma patients_columns_NoDup : NoDup (columns patients).
Proof.
  repeat constructor; simpl; intuition discriminate.
Qed.

Lemma handle_missing_values_fills_numeric_witness :
  exists out,
    outcome (handle_missing_values no_text_cast patients "median" None None)
    = Ok out
    /\ filled patients out
    /\ forall j f, nth_error (schema patients) j = Some f ->
         is_numeric (dataType f) = true ->
         has_number patients j ->
         forall r, In r (rows out) -> get r j <> None.
Proof.
  apply (@handle_missing_values_fills_numeric no_text_cast patients
           "median"%string).
  - now left.
  - exact patients_columns_NoDup.
  - exact patients_rectangular.
Defined.


Lemma handle_missing_values_threshold_out_of_range_witness :
  handle_missing_values no_text_cast patients "median" None (Some 50)
  = handle_missing_values no_text_cast patients "median" None None.
Proof.
  apply (@handle_missing_values_threshold_out_of_range no_text_cast patients
           "median"%string None 50).
  right. reflexivity.
Defined.

Lemma print_quality_report_of_assessment_witness :
  snd (print_quality_report patients_report) = Ok tt.
Proof.
  apply (proj1 (@print_quality_report_of_assessment sqrt6 patients
                  patients_report patients_report_eq)).
Defined.


Lemma execute_query_cap_witness :
  exists capped,
    execute_query sample_sql local_session "SELECT * FROM patients" true
                  (Some 2%Z) = Ok (Pandas capped)
    /\ (count capped <= 2)%Z.
Proof.
  destruct (proj1 (proj1 (@execute_query_cap sample_sql local_session
                            "SELECT * FROM patients"%string true 2%Z)
                         patients eq_refl) ltac:(lia))
    as [capped [H1 [_ [_ [H4 _]]]]].
  exists capped. split; [exact H1 | exact H4].
Defined.



Lemma clean_data_removes_duplicates_witness :
  exists out,
    outcome (clean_data no_text_cast patients true (Some age_weight_rules)
                        None) = Ok out
    /\ NoDup (rows out).
Proof.
  eexists. split; [vm_compute; reflexivity|].
  apply (proj2 (@clean_data_removes_duplicates no_text_cast patients)
               (Some age_weight_rules)).
  vm_compute. reflexivity.
Defined.

Lemma clean_data_row_count_witness :
  exists out,
    outcome (clean_data no_text_cast patients true (Some age_weight_rules)
                        (Some finding_rules)) = Ok out
    /\ (count out <= count patients)%Z.
Proof.
  eexists. split; [vm_compute; reflexivity|].
  apply (proj1 (@clean_data_row_count no_text_cast patients)
               true (Some age_weight_rules) (Some finding_rules)).
  vm_compute. reflexivity.
Defined.

Lemma handle_missing_values_drop_witness :
  exists out,
    handle_missing_values no_text_cast patients "drop" None None
    = ([MsgDroppedMissing (count patients - count out)], Ok out)
    /\ forall r, In r (rows out) <->
         In r (rows patients)
         /\ forall j, (j < List.length (schema patients))%nat ->
              get r j <> None.
Proof.
  destruct (proj1 (@handle_missing_values_drop no_text_cast patients))
    as [out [H1 [_ H3]]].
  exists out. split; [exact H1 | exact H3].
Defined.

Lemma load_dataset_options_witness :
  load_dataset sample_reader local_session "data/raw/metadata.csv" "parquet"
               false false None "FAILFAST" []
  = load_dataset sample_reader local_session "data/raw/metadata.csv" "parquet"
                 true true None "PERMISSIVE" [].
Proof.
  apply (proj1 (@load_dataset_options sample_reader local_session
                  "data/raw/metadata.csv"%string "parquet"%string true true
                  None "PERMISSIVE"%string [])).
  discriminate.
Defined.
